(** * stock_backend: the paginated query engine of [stock_data_query.py]

    A shallow embedding of the class [StockQuery] and of the SQL statements
    it sends, followed by the properties of its pagination arithmetic,
    argument validation and result shapes.

    Python integers are unbounded, so page numbers, counts, limits and
    offsets are in [Z].  Dates are day numbers counted from 1970-01-01. *)

From Stdlib Require Import ZArith List String Bool Lia Sorted Permutation.
Import ListNotations.
Open Scope Z_scope.

(** ** Tables *)

(** A row of [stocks], with the seven columns every statement selects. *)
Module StockRecord.
Record t : Type := mk
  { id : Z;
    ts_code : string;
    symbol : string;
    name : string;
    area : string;
    industry : string;
    list_date : string }.
End StockRecord.

(** A row of [stock_daily_data].  The price columns are carried along as the
    text the driver hands back; no statement inspects them. *)
Module DailyBar.
Record t : Type := mk
  { ts_code : string;
    trade_date : Z;
    prices : list (string * string) }.
End DailyBar.

(** A row of [stock_technical_indicators_clean]. *)
Module TechnicalIndicatorSnapshot.
Record t : Type := mk
  { id : Z;
    ts_code : string;
    indicators : list (string * string) }.
End TechnicalIndicatorSnapshot.

(** A row of [ai_predictions] and of [ai_predictions_top3]. *)
Module PredictionRecord.
Record t : Type := mk
  { id : Z;
    ts_code : string;
    predict_date : Z;
    for_date : Z;
    prediction_score : string }.
End PredictionRecord.

Record Database : Type :=
  { stocks : list StockRecord.t;
    stock_daily_data : list DailyBar.t;
    stock_technical_indicators_clean : list TechnicalIndicatorSnapshot.t;
    ai_predictions : list PredictionRecord.t;
    ai_predictions_top3 : list PredictionRecord.t }.

(** ** SQL fragments *)

(** [ORDER BY key ASC] as a stable insertion sort. *)
Fixpoint insert_row {A : Type} (key : A -> Z) (x : A) (l : list A) : list A :=
  match l with
  | [] => [x]
  | y :: l' => if key x <=? key y then x :: y :: l' else y :: insert_row key x l'
  end.

Definition order_by {A : Type} (key : A -> Z) (l : list A) : list A :=
  fold_right (insert_row key) [] l.

(** [ORDER BY key DESC]. *)
Definition order_by_desc {A : Type} (key : A -> Z) (l : list A) : list A :=
  order_by (fun r => - key r) l.

(** [LIMIT limit OFFSET offset] on an already ordered result. *)
Definition limit_offset {A : Type} (limit offset : Z) (l : list A) : list A :=
  firstn (Z.to_nat limit) (skipn (Z.to_nat offset) l).

(** [COUNT( * )]. *)
Definition count_rows {A : Type} (l : list A) : Z := Z.of_nat (List.length l).

(** [WEEKDAY(d)]: 0 is Monday, 6 is Sunday; day 0 (1970-01-01) is a Thursday. *)
Definition WEEKDAY (d : Z) : Z := (d + 3) mod 7.

(** [DATE_SUB(d, INTERVAL k DAY)]. *)
Definition DATE_SUB (d k : Z) : Z := d - k.

(** ** Statements

    One constructor per [text(...)] in the source, indexed by what
    [fetchall], [fetchone] or [fetchone().total] yields for it. *)
Inductive Query : Type -> Type :=
| Q_stocks_page (limit offset : Z) : Query (list StockRecord.t)
| Q_stocks_count : Query Z
| Q_stock_by_symbol (symbol : string) : Query (option StockRecord.t)
| Q_stock_by_name (name : string) : Query (option StockRecord.t)
| Q_area_page (area : string) (limit offset : Z) : Query (list StockRecord.t)
| Q_area_count (area : string) : Query Z
| Q_industry_page (industry : string) (limit offset : Z) : Query (list StockRecord.t)
| Q_industry_count (industry : string) : Query Z
| Q_recent_daily (ts_code : string) : Query (list DailyBar.t)
| Q_latest_indicators (ts_code : string) : Query (option TechnicalIndicatorSnapshot.t)
| Q_today_predictions (ts_code : string) : Query (list PredictionRecord.t)
| Q_top3 : Query (list PredictionRecord.t).

(** [WHERE area = :area] and [WHERE industry = :industry]; text columns are
    compared as the strings they hold. *)
Definition area_is (v : string) (r : StockRecord.t) : bool :=
  String.eqb (StockRecord.area r) v.

Definition industry_is (v : string) (r : StockRecord.t) : bool :=
  String.eqb (StockRecord.industry r) v.

(** The [WHERE] clause of [get_recent_7_days_data]. *)
Definition recent_weekday_bar (curdate : Z) (v : string) (r : DailyBar.t) : bool :=
  String.eqb (DailyBar.ts_code r) v
  && (DATE_SUB curdate 14 <=? DailyBar.trade_date r)
  && (WEEKDAY (DailyBar.trade_date r) <? 5).

(** The server refuses a negative [LIMIT] or [OFFSET]. *)
Definition bounded {A : Type} (limit offset : Z) (l : list A) : string + list A :=
  if (limit <? 0) || (offset <? 0)
  then inl "1064"%string
  else inr (limit_offset limit offset l).

(** What the server answers to a statement, on date [curdate] with contents [db]. *)
Definition answer {R : Type} (q : Query R) (curdate : Z) (db : Database) : string + R :=
  match q in Query R return string + R with
  | Q_stocks_page limit offset =>
      bounded limit offset (order_by StockRecord.id (stocks db))
  | Q_stocks_count =>
      inr (count_rows (stocks db))
  | Q_stock_by_symbol v =>
      inr (find (fun r => String.eqb (StockRecord.symbol r) v) (stocks db))
  | Q_stock_by_name v =>
      inr (find (fun r => String.eqb (StockRecord.name r) v) (stocks db))
  | Q_area_page v limit offset =>
      bounded limit offset (order_by StockRecord.id (filter (area_is v) (stocks db)))
  | Q_area_count v =>
      inr (count_rows (filter (area_is v) (stocks db)))
  | Q_industry_page v limit offset =>
      bounded limit offset (order_by StockRecord.id (filter (industry_is v) (stocks db)))
  | Q_industry_count v =>
      inr (count_rows (filter (industry_is v) (stocks db)))
  | Q_recent_daily v =>
      inr (firstn 7 (order_by_desc DailyBar.trade_date
                       (filter (recent_weekday_bar curdate v) (stock_daily_data db))))
  | Q_latest_indicators v =>
      inr (hd_error (order_by_desc TechnicalIndicatorSnapshot.id
                       (filter (fun r => String.eqb (TechnicalIndicatorSnapshot.ts_code r) v)
                               (stock_technical_indicators_clean db))))
  | Q_today_predictions v =>
      inr (order_by_desc PredictionRecord.id
             (filter (fun r => String.eqb (PredictionRecord.ts_code r) v
                               && (PredictionRecord.predict_date r =? curdate))
                     (ai_predictions db)))
  | Q_top3 =>
      inr (order_by PredictionRecord.id (ai_predictions_top3 db))
  end.

(** ** The backing store over time

    The engine keeps no snapshot: every statement is a round trip of its own.
    A [World] says what the server is at each round trip, so a dataset that
    changes between a count and a fetch is a world whose successive states
    differ. *)
Inductive Server : Type :=
| Up (curdate : Z) (db : Database)
| Down (e : string).

Definition World : Type := nat -> Server.

(** An unchanged, reachable dataset. *)
Definition steady (curdate : Z) (db : Database) : World := fun _ => Up curdate db.

(** A statement as it appears in the log of round trips. *)
Definition Statement : Type := { R : Type & Query R }.

Definition stmt {R : Type} (q : Query R) : Statement := existT Query R q.

(** ** Exceptions *)

(** The texts of the [ValueError]s, with the values their f-strings splice in. *)
Inductive ValueErrorMsg : Type :=
| page_below_one
| page_exceeds_max (n total_pages : Z)
| page_beyond_data (n actual_total : Z)
| empty_symbol
| empty_name
| empty_area
| empty_industry
| empty_ts_code.

(** The texts of the wrapping [Exception]s; [e] is [str(e)]. *)
Inductive ExceptionMsg : Type :=
| db_query_error (e : string)
| total_count_error (e : string)
| query_error (e : string)
| top3_error (e : string).

Inductive exn : Type :=
| ValueError (msg : ValueErrorMsg)
| SQLAlchemyError (e : string)
| Exception (msg : ExceptionMsg).

Inductive Outcome (A : Type) : Type :=
| Return (a : A)
| Raise (x : exn).

Arguments Return {A} a.
Arguments Raise {A} x.

(** ** The monad of engine calls

    A call reads the world and extends the log of statements sent so far
    (most recent first); the length of the log is the index of the next
    round trip. *)
Definition M (A : Type) : Type := World -> list Statement -> Outcome A * list Statement.

Definition ret {A : Type} (a : A) : M A := fun _ log => (Return a, log).

Definition raise {A : Type} (x : exn) : M A := fun _ log => (Raise x, log).

Definition bind {A B : Type} (m : M A) (k : A -> M B) : M B :=
  fun w log =>
    match m w log with
    | (Return a, log') => k a w log'
    | (Raise x, log') => (Raise x, log')
    end.

Declare Scope engine_scope.
Delimit Scope engine_scope with engine.
Notation "x <- m ;; k" := (bind m (fun x => k))
  (at level 100, m at next level, right associativity) : engine_scope.
Notation "m ;;; k" := (bind m (fun _ => k))
  (at level 100, right associativity) : engine_scope.
Open Scope engine_scope.

(** [try: body except SQLAlchemyError as e: handler]. *)
Definition try_except {A : Type} (body : M A) (handler : string -> M A) : M A :=
  fun w log =>
    match body w log with
    | (Raise (SQLAlchemyError e), log') => handler e w log'
    | r => r
    end.

(** [with self.engine.connect() as conn: conn.execute(q, ...)] followed by the
    fetch: one round trip. *)
Definition execute {R : Type} (q : Query R) : M R :=
  fun w log =>
    match w (List.length log) with
    | Up curdate db =>
        match answer q curdate db with
        | inr r => (Return r, stmt q :: log)
        | inl e => (Raise (SQLAlchemyError e), stmt q :: log)
        end
    | Down e => (Raise (SQLAlchemyError e), stmt q :: log)
    end.

(** Python truthiness of a [str] and of a list. *)
Definition str_empty (s : string) : bool :=
  match s with EmptyString => true | String _ _ => false end.

Definition no_rows {A : Type} (l : list A) : bool :=
  match l with [] => true | _ :: _ => false end.

(** A call made on a fresh log. *)
Definition run {A : Type} (m : M A) (w : World) : Outcome A * list Statement := m w [].

(** ** The class [StockQuery] *)
Module StockQuery.

Definition get_total_records : M Z :=
  try_except
    (execute Q_stocks_count)
    (fun e => raise (Exception (total_count_error e))).

Definition get_total_pages : M Z :=
  total_count <- get_total_records ;;
  ret (if total_count >? 0 then (total_count + 20 - 1) / 20 else 0).

Definition get_stocks_by_page_number (n : Z) (check_total : bool)
  : M (list StockRecord.t) :=
  if n <? 1 then raise (ValueError page_below_one) else
  (if check_total then
     total_pages <- get_total_pages ;;
     if n >? total_pages
     then raise (ValueError (page_exceeds_max n total_pages))
     else ret tt
   else ret tt) ;;;
  let offset := 20 * (n - 1) in
  let limit := 20 in
  try_except
    (rows <- execute (Q_stocks_page limit offset) ;;
     (if no_rows rows && (n >? 1) && check_total then
        actual_total <- get_total_records ;;
        if actual_total <=? offset
        then raise (ValueError (page_beyond_data n actual_total))
        else ret tt
      else ret tt) ;;;
     ret rows)
    (fun e => raise (Exception (db_query_error e))).

Definition get_stock_by_symbol (symbol : string) : M (option StockRecord.t) :=
  if str_empty symbol then raise (ValueError empty_symbol) else
  try_except
    (execute (Q_stock_by_symbol symbol))
    (fun e => raise (Exception (query_error e))).

Definition get_stock_by_name (name : string) : M (option StockRecord.t) :=
  if str_empty name then raise (ValueError empty_name) else
  try_except
    (execute (Q_stock_by_name name))
    (fun e => raise (Exception (query_error e))).

Definition get_area_total_records (area : string) : M Z :=
  try_except
    (execute (Q_area_count area))
    (fun e => raise (Exception (query_error e))).

Definition get_area_total_pages (area : string) : M Z :=
  total <- get_area_total_records area ;;
  ret (if total >? 0 then (total + 20 - 1) / 20 else 0).

Definition get_stocks_by_page_and_area (n : Z) (area : string)
  : M (list StockRecord.t) :=
  if n <? 1 then raise (ValueError page_below_one) else
  if str_empty area then raise (ValueError empty_area) else
  area_total <- get_area_total_records area ;;
  if area_total =? 0 then ret [] else
  total_pages <- get_area_total_pages area ;;
  if n >? total_pages
  then raise (ValueError (page_exceeds_max n total_pages)) else
  let offset := 20 * (n - 1) in
  let limit := if n <? total_pages then 20 else area_total - offset in
  try_except
    (execute (Q_area_page area limit offset))
    (fun e => raise (Exception (query_error e))).

Definition get_industry_total_records (industry : string) : M Z :=
  try_except
    (execute (Q_industry_count industry))
    (fun e => raise (Exception (query_error e))).

Definition get_industry_total_pages (industry : string) : M Z :=
  total <- get_industry_total_records industry ;;
  ret (if total >? 0 then (total + 20 - 1) / 20 else 0).

Definition get_stocks_by_page_and_industry (n : Z) (industry : string)
  : M (list StockRecord.t) :=
  if n <? 1 then raise (ValueError page_below_one) else
  if str_empty industry then raise (ValueError empty_industry) else
  total <- get_industry_total_records industry ;;
  if total =? 0 then ret [] else
  total_pages <- get_industry_total_pages industry ;;
  if n >? total_pages
  then raise (ValueError (page_exceeds_max n total_pages)) else
  let offset := 20 * (n - 1) in
  let limit := if n <? total_pages then 20 else total - offset in
  try_except
    (execute (Q_industry_page industry limit offset))
    (fun e => raise (Exception (query_error e))).

Definition get_recent_7_days_data (ts_code : string) : M (list DailyBar.t) :=
  if str_empty ts_code then raise (ValueError empty_ts_code) else
  try_except
    (execute (Q_recent_daily ts_code))
    (fun e => raise (Exception (query_error e))).

Definition get_latest_technical_indicators (ts_code : string)
  : M (option TechnicalIndicatorSnapshot.t) :=
  if str_empty ts_code then raise (ValueError empty_ts_code) else
  try_except
    (execute (Q_latest_indicators ts_code))
    (fun e => raise (Exception (query_error e))).

Definition get_today_predictions_by_ts_code (ts_code : string)
  : M (list PredictionRecord.t) :=
  if str_empty ts_code then raise (ValueError empty_ts_code) else
  try_except
    (execute (Q_today_predictions ts_code))
    (fun e => raise (Exception (query_error e))).

Definition get_top3_predictions : M (list PredictionRecord.t) :=
  try_except
    (execute Q_top3)
    (fun e => raise (Exception (top3_error e))).

End StockQuery.

Import StockQuery.

(** ** Sample data *)

(** [k] stock rows with ids [k, k-1, ..., 1], all in one area and industry. *)
Fixpoint sample_stocks (k : nat) (area industry : string) : list StockRecord.t :=
  match k with
  | O => []
  | S k' =>
      StockRecord.mk (Z.of_nat k) "c" "s" "n" area industry "d"
        :: sample_stocks k' area industry
  end.

Definition stocks_only (l : list StockRecord.t) : Database :=
  {| stocks := l;
     stock_daily_data := [];
     stock_technical_indicators_clean := [];
     ai_predictions := [];
     ai_predictions_top3 := [] |}.

Definition bars_only (l : list DailyBar.t) : Database :=
  {| stocks := [];
     stock_daily_data := l;
     stock_technical_indicators_clean := [];
     ai_predictions := [];
     ai_predictions_top3 := [] |}.

Definition db45 : Database := stocks_only (sample_stocks 45 "SZ" "bank").

Definition db40 : Database := stocks_only (sample_stocks 40 "SZ" "bank").

(** A dataset of 45 rows at the count, 40 rows from the fetch on. *)
Definition shrinking : World :=
  fun k => match k with O => Up 0 db45 | _ => Up 0 db40 end.

(** Bars of one ticker on the given days. *)
Definition bars_on (v : string) (days : list Z) : list DailyBar.t :=
  map (fun d => DailyBar.mk v d []) days.

(** Day 20000 is a Friday.  A bar on each weekday from day 19990 to day
    20000, and one on the Saturday in between. *)
Definition ten_days_of_bars : Database :=
  bars_only (bars_on "000001.SZ"
               [19990; 19991; 19992; 19993; 19994; 19996; 19997; 19998; 19999; 20000]).

(** Indicator snapshots of two tickers, and predictions made on days 19999
    and 20000 beside a top-N table of five rows. *)
Definition sample_signals : Database :=
  {| stocks := [];
     stock_daily_data := [];
     stock_technical_indicators_clean :=
       [ TechnicalIndicatorSnapshot.mk 1 "000001.SZ" [];
         TechnicalIndicatorSnapshot.mk 3 "000001.SZ" [];
         TechnicalIndicatorSnapshot.mk 2 "600000.SH" [] ];
     ai_predictions :=
       [ PredictionRecord.mk 1 "000001.SZ" 19999 20000 "0.4";
         PredictionRecord.mk 2 "000001.SZ" 20000 20001 "0.7";
         PredictionRecord.mk 3 "600000.SH" 20000 20001 "0.6";
         PredictionRecord.mk 4 "000001.SZ" 20000 20003 "0.5" ];
     ai_predictions_top3 :=
       [ PredictionRecord.mk 5 "000002.SZ" 20000 20001 "0.9";
         PredictionRecord.mk 2 "000001.SZ" 20000 20001 "0.7";
         PredictionRecord.mk 4 "600000.SH" 20000 20001 "0.6";
         PredictionRecord.mk 1 "600519.SH" 20000 20001 "0.8";
         PredictionRecord.mk 3 "000333.SZ" 20000 20001 "0.5" ] |}.

(** ** The page-count expression

    [(total + 20 - 1) // 20 if total > 0 else 0], as the three [*_total_pages]
    methods spell it out. *)
Definition pages_for (total : Z) : Z :=
  if total >? 0 then (total + 20 - 1) / 20 else 0.

(** Two rows in [ORDER BY key ASC] order. *)
Definition ascending {A : Type} (key : A -> Z) (a b : A) : Prop := key a <= key b.

(** ** Shapes of outcomes *)

(** The call refuses its arguments with a [ValueError] that is the same in
    every world, and sends no statement. *)
Definition rejected_unread {A : Type} (m : M A) : Prop :=
  exists msg : ValueErrorMsg, forall w : World, run m w = (Raise (ValueError msg), []).

(** What a filtered fetch of page [n] over the rows [matching] comes to: the
    last statement sent is the bounded select with the limit 20 before the
    last page and [count - 20 * (n - 1)] on it; the rows returned are that
    slice of the id-ordered matching rows, as many as the limit, which is
    between 1 and 20. *)
Definition exact_page
  (outcome : Outcome (list StockRecord.t) * list Statement)
  (select : Z -> Z -> Statement) (matching : list StockRecord.t) (n : Z) : Prop :=
  let count := count_rows matching in
  let total_pages := pages_for count in
  let offset := 20 * (n - 1) in
  let limit := if n <? total_pages then 20 else count - offset in
  hd_error (snd outcome) = Some (select limit offset)
  /\ fst outcome = Return (limit_offset limit offset (order_by StockRecord.id matching))
  /\ count_rows (limit_offset limit offset (order_by StockRecord.id matching)) = limit
  /\ 1 <= limit <= 20.

(** ** Exceptions that a call never lets through *)

(** [m] never ends in a bare [SQLAlchemyError], whatever the world and
    whatever was sent before. *)
Definition never_leaks {A : Type} (m : M A) : Prop :=
  forall (w : World) (log : list Statement) (e : string),
    fst (m w log) <> Raise (SQLAlchemyError e).

(** ** The routes of [main.py] *)

(** The texts of the 404 details. *)
Inductive NotFound : Type :=
| symbol_not_found (symbol : string)
| name_not_found (name : string)
| recent_not_found (ts_code : string)
| indicators_not_found (ts_code : string)
| top3_not_found
| today_not_found (ts_code : string).

(** What a route body can raise: an exception of the engine, or an
    [HTTPException], itself an [Exception].  A detail is the fixed text of
    [check_db_connection], [str(e)] of a [ValueError], a not-found text, or
    the "query failed" prefix before [str(e)] of whatever was caught. *)
Inductive pyexn : Type :=
| Engine (x : exn)
| HTTPException (status_code : Z) (detail : Detail)
with Detail : Type :=
| db_uninitialised
| value_error_text (msg : ValueErrorMsg)
| not_found_text (what : NotFound)
| query_failed (e : pyexn).

Inductive Reply (A : Type) : Type :=
| Body (a : A)
| Failed (x : pyexn).

Arguments Body {A} a.
Arguments Failed {A} x.

(** Route bodies: engine calls with the larger set of exceptions. *)
Definition H (A : Type) : Type := World -> list Statement -> Reply A * list Statement.

Definition hret {A : Type} (a : A) : H A := fun _ log => (Body a, log).

Definition hraise {A : Type} (x : pyexn) : H A := fun _ log => (Failed x, log).

Definition hbind {A B : Type} (m : H A) (k : A -> H B) : H B :=
  fun w log =>
    match m w log with
    | (Body a, log') => k a w log'
    | (Failed x, log') => (Failed x, log')
    end.

(** A method call on [stock_query]. *)
Definition call {A : Type} (m : M A) : H A :=
  fun w log =>
    match m w log with
    | (Return a, log') => (Body a, log')
    | (Raise x, log') => (Failed (Engine x), log')
    end.

Declare Scope route_scope.
Delimit Scope route_scope with route.
Notation "x <- m ;; k" := (hbind m (fun x => k))
  (at level 100, m at next level, right associativity) : route_scope.
Notation "m ;;; k" := (hbind m (fun _ => k))
  (at level 100, right associativity) : route_scope.

(** [try: body except ValueError as e: on_value_error except Exception as e:
    on_exception].  The first clause takes the [ValueError]s; the second takes
    every other exception, an [HTTPException] raised in the body included.
    What a clause raises is not caught again. *)
Definition try_except_ValueError_Exception {A : Type}
  (body : H A) (on_value_error : ValueErrorMsg -> H A) (on_exception : pyexn -> H A) : H A :=
  fun w log =>
    match body w log with
    | (Failed (Engine (ValueError msg)), log') => on_value_error msg w log'
    | (Failed x, log') => on_exception x w log'
    | r => r
    end.

(** [try: body except Exception as e: on_exception]. *)
Definition try_except_Exception {A : Type}
  (body : H A) (on_exception : pyexn -> H A) : H A :=
  fun w log =>
    match body w log with
    | (Failed x, log') => on_exception x w log'
    | r => r
    end.

(** The database settings of [main.py], as read from the environment. *)
Record Settings : Type :=
  { DB_HOST : string;
    DB_PORT : Z;
    DB_USER : string;
    DB_PASSWORD : string;
    DB_NAME : string }.

(** Whether the module-level [stock_query] holds a [StockQuery] after
    start-up: all five settings must be truthy, and [StockQuery(...)] must not
    have raised ([created]). *)
Definition stock_query_initialised (settings : Settings) (created : bool) : bool :=
  if negb (str_empty (DB_HOST settings))
     && negb (DB_PORT settings =? 0)
     && negb (str_empty (DB_USER settings))
     && negb (str_empty (DB_PASSWORD settings))
     && negb (str_empty (DB_NAME settings))
  then created
  else false.

(** The route bodies; [stock_query] says whether the module-level
    [stock_query] is set.  The [ge=1] of the page parameters is checked by
    the framework before a body runs and is not part of it. *)
Module main.

Definition check_db_connection (stock_query : bool) : H unit :=
  if negb stock_query
  then hraise (HTTPException 500 db_uninitialised)
  else hret tt.

Definition get_stocks_by_page (stock_query : bool) (page_num : Z)
  : H (list StockRecord.t) :=
  (check_db_connection stock_query ;;;
   try_except_ValueError_Exception
     (call (StockQuery.get_stocks_by_page_number page_num true))
     (fun e => hraise (HTTPException 400 (value_error_text e)))
     (fun e => hraise (HTTPException 500 (query_failed e))))%route.

Definition get_stock_by_symbol (stock_query : bool) (symbol : string)
  : H StockRecord.t :=
  (check_db_connection stock_query ;;;
   try_except_ValueError_Exception
     (result <- call (StockQuery.get_stock_by_symbol symbol) ;;
      match result with
      | None => hraise (HTTPException 404 (not_found_text (symbol_not_found symbol)))
      | Some r => hret r
      end)
     (fun e => hraise (HTTPException 400 (value_error_text e)))
     (fun e => hraise (HTTPException 500 (query_failed e))))%route.

Definition get_stock_by_name (stock_query : bool) (name : string)
  : H StockRecord.t :=
  (check_db_connection stock_query ;;;
   try_except_ValueError_Exception
     (result <- call (StockQuery.get_stock_by_name name) ;;
      match result with
      | None => hraise (HTTPException 404 (not_found_text (name_not_found name)))
      | Some r => hret r
      end)
     (fun e => hraise (HTTPException 400 (value_error_text e)))
     (fun e => hraise (HTTPException 500 (query_failed e))))%route.

Definition get_stocks_by_industry (stock_query : bool) (industry : string) (page_num : Z)
  : H (list StockRecord.t) :=
  (check_db_connection stock_query ;;;
   try_except_ValueError_Exception
     (call (StockQuery.get_stocks_by_page_and_industry page_num industry))
     (fun e => hraise (HTTPException 400 (value_error_text e)))
     (fun e => hraise (HTTPException 500 (query_failed e))))%route.

Definition get_stocks_by_area (stock_query : bool) (area : string) (page_num : Z)
  : H (list StockRecord.t) :=
  (check_db_connection stock_query ;;;
   try_except_ValueError_Exception
     (call (StockQuery.get_stocks_by_page_and_area page_num area))
     (fun e => hraise (HTTPException 400 (value_error_text e)))
     (fun e => hraise (HTTPException 500 (query_failed e))))%route.

Definition get_recent_7_days_data (stock_query : bool) (ts_code : string)
  : H (list DailyBar.t) :=
  (check_db_connection stock_query ;;;
   try_except_ValueError_Exception
     (result <- call (StockQuery.get_recent_7_days_data ts_code) ;;
      if no_rows result
      then hraise (HTTPException 404 (not_found_text (recent_not_found ts_code)))
      else hret result)
     (fun e => hraise (HTTPException 400 (value_error_text e)))
     (fun e => hraise (HTTPException 500 (query_failed e))))%route.

Definition get_latest_technical_indicators (stock_query : bool) (ts_code : string)
  : H TechnicalIndicatorSnapshot.t :=
  (check_db_connection stock_query ;;;
   try_except_ValueError_Exception
     (result <- call (StockQuery.get_latest_technical_indicators ts_code) ;;
      match result with
      | None => hraise (HTTPException 404 (not_found_text (indicators_not_found ts_code)))
      | Some r => hret r
      end)
     (fun e => hraise (HTTPException 400 (value_error_text e)))
     (fun e => hraise (HTTPException 500 (query_failed e))))%route.

Definition get_top3_stock_predictions (stock_query : bool)
  : H (list PredictionRecord.t) :=
  (check_db_connection stock_query ;;;
   try_except_Exception
     (result <- call StockQuery.get_top3_predictions ;;
      if no_rows result
      then hraise (HTTPException 404 (not_found_text top3_not_found))
      else hret result)
     (fun e => hraise (HTTPException 500 (query_failed e))))%route.

Definition get_today_predictions (stock_query : bool) (ts_code : string)
  : H (list PredictionRecord.t) :=
  (check_db_connection stock_query ;;;
   try_except_ValueError_Exception
     (result <- call (StockQuery.get_today_predictions_by_ts_code ts_code) ;;
      if no_rows result
      then hraise (HTTPException 404 (not_found_text (today_not_found ts_code)))
      else hret result)
     (fun e => hraise (HTTPException 400 (value_error_text e)))
     (fun e => hraise (HTTPException 500 (query_failed e))))%route.

End main.

(** A request served on a fresh log. *)
Definition serve {A : Type} (h : H A) (w : World) : Reply A * list Statement := h w [].

(** The status code of a reply: 200 for a body, the code of an
    [HTTPException]; an exception of another class leaving a route has none. *)
Definition status_code {A : Type} (r : Reply A) : option Z :=
  match r with
  | Body _ => Some 200
  | Failed (HTTPException code _) => Some code
  | Failed (Engine _) => None
  end.

(** The reply is a body or an [HTTPException] with code 400 or 500. *)
Definition answers_200_400_500 {A : Type} (r : Reply A) : Prop :=
  status_code r = Some 200 \/ status_code r = Some 400 \/ status_code r = Some 500.

(** Some setting is falsy: an empty text or a zero port. *)
Definition incomplete (settings : Settings) : Prop :=
  DB_HOST settings = EmptyString \/ DB_PORT settings = 0
  \/ DB_USER settings = EmptyString \/ DB_PASSWORD settings = EmptyString
  \/ DB_NAME settings = EmptyString.

(** The settings of a deployment without a password. *)
Definition no_password : Settings :=
  {| DB_HOST := "db.example.org";
     DB_PORT := 23966;
     DB_USER := "avnadmin";
     DB_PASSWORD := EmptyString;
     DB_NAME := "defaultdb" |}.

(** ** The environment report of [main.py] *)

(** The process environment, and [os.getenv(key, default)]. *)
Definition Environ : Type := string -> option string.

Definition getenv (environ : Environ) (key default : string) : string :=
  match environ key with
  | Some value => value
  | None => default
  end.

(** [needle in hay] on [str]. *)
Fixpoint contains (needle hay : string) : bool :=
  String.prefix needle hay
  || match hay with
     | EmptyString => false
     | String _ hay' => contains needle hay'
     end.

(** The [safe_get] of [debug_env]. *)
Definition safe_get (environ : Environ) (key : string) : string :=
  let value := getenv environ key "NOT_SET" in
  if contains "PASSWORD" key || contains "SECRET" key
  then (if negb (String.eqb value "NOT_SET") then "***HIDDEN***" else "NOT_SET")%string
  else value.

(** The dictionary of dictionaries that [debug_env] returns, in key order. *)
Definition debug_env (environ : Environ) : list (string * list (string * string)) :=
  [ ("vercel_env",
     [ ("VERCEL_REGION", getenv environ "VERCEL_REGION" "NOT_SET");
       ("VERCEL_ENV", getenv environ "VERCEL_ENV" "NOT_SET");
       ("VERCEL_URL", getenv environ "VERCEL_URL" "NOT_SET") ]);
    ("database_env",
     [ ("DB_HOST", safe_get environ "DB_HOST");
       ("DB_PORT", safe_get environ "DB_PORT");
       ("DB_USER", safe_get environ "DB_USER");
       ("DB_PASSWORD", safe_get environ "DB_PASSWORD");
       ("DB_NAME", safe_get environ "DB_NAME") ]);
    ("python_env",
     [ ("PYTHON_VERSION", getenv environ "PYTHON_VERSION" "NOT_SET");
       ("PYTHONPATH", getenv environ "PYTHONPATH" "NOT_SET") ]) ]%string.

(** An environment that sets the database variables, with the given password. *)
Definition deployed (password : string) : Environ :=
  fun key =>
    if String.eqb key "DB_HOST" then Some "db.example.org"%string
    else if String.eqb key "DB_USER" then Some "avnadmin"%string
    else if String.eqb key "DB_PASSWORD" then Some password
    else None.

(** ** Page-count arithmetic *)

Lemma pages_for_bounds (c : Z) :
  0 <= c -> 20 * (pages_for c - 1) < c <= 20 * pages_for c.
Proof.
  intros Hc. unfold pages_for.
  destruct (c >? 0) eqn:E.
  - apply Z.gtb_lt in E.
    pose proof (Z.div_mod (c + 20 - 1) 20 ltac:(lia)) as Hdm.
    pose proof (Z.mod_pos_bound (c + 20 - 1) 20 ltac:(lia)) as Hb.
    lia.
  - assert (c = 0) by (rewrite Z.gtb_ltb in E; apply Z.ltb_ge in E; lia).
    subst. lia.
Qed.

Lemma pages_for_zero (c : Z) : 0 <= c -> (pages_for c = 0 <-> c = 0).
Proof.
  intros Hc. pose proof (pages_for_bounds c Hc). split; intros; subst.
  - lia.
  - reflexivity.
Qed.

Lemma pages_for_mono (c d : Z) : 0 <= c -> c <= d -> pages_for c <= pages_for d.
Proof.
  intros Hc Hcd.
  pose proof (pages_for_bounds c Hc).
  pose proof (pages_for_bounds d ltac:(lia)).
  lia.
Qed.

Lemma count_rows_nonneg {A : Type} (l : list A) : 0 <= count_rows l.
Proof. unfold count_rows. lia. Qed.

(** ** Ordering and slicing *)
Section Ordering.
Context {A : Type}.
Variable key : A -> Z.

Lemma length_insert_row (x : A) (l : list A) :
  List.length (insert_row key x l) = S (List.length l).
Proof.
  induction l as [|y l IH]; simpl; [reflexivity|].
  destruct (key x <=? key y); simpl; [reflexivity | now rewrite IH].
Qed.

Lemma length_order_by (l : list A) :
  List.length (order_by key l) = List.length l.
Proof.
  induction l as [|x l IH]; simpl; [reflexivity|].
  now rewrite length_insert_row, IH.
Qed.

Lemma In_insert_row (x z : A) (l : list A) :
  In z (insert_row key x l) <-> z = x \/ In z l.
Proof.
  induction l as [|y l IH]; simpl.
  - intuition.
  - destruct (key x <=? key y); simpl; rewrite ?IH; intuition.
Qed.

Lemma In_order_by (z : A) (l : list A) : In z (order_by key l) <-> In z l.
Proof.
  induction l as [|x l IH]; simpl; [reflexivity|].
  rewrite In_insert_row, IH. intuition.
Qed.

Lemma insert_row_sorted (x : A) (l : list A) :
  StronglySorted (ascending key) l -> StronglySorted (ascending key) (insert_row key x l).
Proof.
  induction 1 as [|y l Hs IH Hall]; simpl.
  - repeat constructor.
  - destruct (key x <=? key y) eqn:E.
    + apply Z.leb_le in E. constructor.
      * now constructor.
      * constructor; [exact E|].
        rewrite Forall_forall in Hall |- *. intros z Hz.
        specialize (Hall z Hz). unfold ascending in *. lia.
    + apply Z.leb_gt in E. constructor; [exact IH|].
      rewrite Forall_forall in Hall |- *. intros z Hz.
      apply In_insert_row in Hz. destruct Hz as [->|Hz].
      * unfold ascending. lia.
      * now apply Hall.
Qed.

Lemma order_by_sorted (l : list A) : StronglySorted (ascending key) (order_by key l).
Proof.
  induction l as [|x l IH]; simpl; [constructor | now apply insert_row_sorted].
Qed.
End Ordering.

Lemma In_firstn {A : Type} (k : nat) (l : list A) (z : A) :
  In z (firstn k l) -> In z l.
Proof.
  revert l. induction k as [|k IH]; intros [|x l]; simpl; try tauto.
  intros [->|Hz]; [now left | right; now apply IH].
Qed.

Section Slicing.
Context {A : Type}.
Variable R : A -> A -> Prop.

Lemma skipn_sorted (k : nat) (l : list A) :
  StronglySorted R l -> StronglySorted R (skipn k l).
Proof.
  revert l. induction k as [|k IH]; intros l Hs; simpl; [exact Hs|].
  destruct l as [|x l]; [constructor|].
  apply IH. now inversion Hs.
Qed.

Lemma firstn_sorted (k : nat) (l : list A) :
  StronglySorted R l -> StronglySorted R (firstn k l).
Proof.
  revert l. induction k as [|k IH]; intros l Hs; simpl; [constructor|].
  destruct l as [|x l]; [constructor|].
  inversion Hs as [|? ? Hs' Hall]; subst.
  constructor; [now apply IH|].
  rewrite Forall_forall in Hall |- *. intros z Hz.
  apply Hall. now apply In_firstn in Hz.
Qed.

Lemma limit_offset_sorted (limit offset : Z) (l : list A) :
  StronglySorted R l -> StronglySorted R (limit_offset limit offset l).
Proof. intros Hs. unfold limit_offset. now apply firstn_sorted, skipn_sorted. Qed.

Lemma count_limit_offset (limit offset : Z) (l : list A) :
  0 <= limit -> 0 <= offset ->
  count_rows (limit_offset limit offset l)
  = Z.min limit (Z.max 0 (count_rows l - offset)).
Proof.
  intros Hl Ho. unfold count_rows, limit_offset.
  rewrite length_firstn, length_skipn. lia.
Qed.
End Slicing.

(** ** Single round trips *)
Section RoundTrips.
Variable w : World.
Variable log : list Statement.
Variables (curdate : Z) (db : Database).
Hypothesis server_up : w (List.length log) = Up curdate db.

Lemma execute_up {R : Type} (q : Query R) (r : R) :
  answer q curdate db = inr r ->
  execute q w log = (Return r, stmt q :: log).
Proof. intros Hq. unfold execute. now rewrite server_up, Hq. Qed.

Lemma get_total_records_up :
  get_total_records w log
  = (Return (count_rows (stocks db)), stmt Q_stocks_count :: log).
Proof.
  unfold get_total_records, try_except.
  now rewrite (execute_up Q_stocks_count (count_rows (stocks db))).
Qed.

Lemma get_total_pages_up :
  get_total_pages w log
  = (Return (pages_for (count_rows (stocks db))), stmt Q_stocks_count :: log).
Proof.
  unfold get_total_pages, bind. now rewrite get_total_records_up.
Qed.

Lemma get_area_total_records_up (v : string) :
  get_area_total_records v w log
  = (Return (count_rows (filter (area_is v) (stocks db))),
     stmt (Q_area_count v) :: log).
Proof.
  unfold get_area_total_records, try_except.
  now rewrite (execute_up (Q_area_count v) (count_rows (filter (area_is v) (stocks db)))).
Qed.

Lemma get_area_total_pages_up (v : string) :
  get_area_total_pages v w log
  = (Return (pages_for (count_rows (filter (area_is v) (stocks db)))),
     stmt (Q_area_count v) :: log).
Proof.
  unfold get_area_total_pages, bind. now rewrite get_area_total_records_up.
Qed.

Lemma get_industry_total_records_up (v : string) :
  get_industry_total_records v w log
  = (Return (count_rows (filter (industry_is v) (stocks db))),
     stmt (Q_industry_count v) :: log).
Proof.
  unfold get_industry_total_records, try_except.
  now rewrite (execute_up (Q_industry_count v)
                 (count_rows (filter (industry_is v) (stocks db)))).
Qed.

Lemma get_industry_total_pages_up (v : string) :
  get_industry_total_pages v w log
  = (Return (pages_for (count_rows (filter (industry_is v) (stocks db)))),
     stmt (Q_industry_count v) :: log).
Proof.
  unfold get_industry_total_pages, bind. now rewrite get_industry_total_records_up.
Qed.

Lemma execute_page_up {R : Type} (q : Query (list R)) (limit offset : Z) (l : list R) :
  answer q curdate db = bounded limit offset l ->
  0 <= limit -> 0 <= offset ->
  execute q w log = (Return (limit_offset limit offset l), stmt q :: log).
Proof.
  intros Hq Hl Ho. apply execute_up. rewrite Hq. unfold bounded.
  destruct (limit <? 0) eqn:E1; [apply Z.ltb_lt in E1; lia|].
  destruct (offset <? 0) eqn:E2; [apply Z.ltb_lt in E2; lia|].
  reflexivity.
Qed.
End RoundTrips.

Lemma str_empty_iff (s : string) : str_empty s = true <-> s = EmptyString.
Proof. destruct s; simpl; split; congruence. Qed.

Lemma str_nonempty (s : string) : s <> EmptyString -> str_empty s = false.
Proof. destruct s; simpl; congruence. Qed.

Lemma no_rows_iff {A : Type} (l : list A) : no_rows l = true <-> l = [].
Proof. destruct l; simpl; split; congruence. Qed.

(** ** Page counts *)

(** C5.  With [c] matching rows, [get_total_pages], [get_area_total_pages]
    and [get_industry_total_pages] return [pages_for c]: 0 for [c = 0], the
    ceiling of [c / 20] for [c > 0] (the least [p] with [c <= 20 * p]), 2 for
    [c = 25], and a value that never decreases when [c] grows. *)
Theorem total_pages_is_ceiling :
  (forall (w : World) (curdate : Z) (db : Database),
      w 0%nat = Up curdate db ->
      fst (run get_total_pages w) = Return (pages_for (count_rows (stocks db))))
  /\ (forall (w : World) (curdate : Z) (db : Database) (v : string),
      w 0%nat = Up curdate db ->
      fst (run (get_area_total_pages v) w)
      = Return (pages_for (count_rows (filter (area_is v) (stocks db)))))
  /\ (forall (w : World) (curdate : Z) (db : Database) (v : string),
      w 0%nat = Up curdate db ->
      fst (run (get_industry_total_pages v) w)
      = Return (pages_for (count_rows (filter (industry_is v) (stocks db)))))
  /\ pages_for 0 = 0
  /\ (forall c : Z, 0 < c -> 20 * (pages_for c - 1) < c <= 20 * pages_for c)
  /\ pages_for 25 = 2
  /\ (forall c d : Z, 0 <= c -> c <= d -> pages_for c <= pages_for d).
Proof.
  repeat split.
  - intros w curdate db Hw. unfold run.
    now rewrite (get_total_pages_up w [] curdate db Hw).
  - intros w curdate db v Hw. unfold run.
    now rewrite (get_area_total_pages_up w [] curdate db Hw).
  - intros w curdate db v Hw. unfold run.
    now rewrite (get_industry_total_pages_up w [] curdate db Hw).
  - apply pages_for_bounds. lia.
  - apply pages_for_bounds. lia.
  - apply pages_for_mono.
Qed.

Lemma total_pages_is_ceiling_witness :
  fst (run get_total_pages (steady 0 db45)) = Return 3
  /\ fst (run (get_area_total_pages "SZ") (steady 0 db45)) = Return 3
  /\ 20 * (pages_for 45 - 1) < 45 <= 20 * pages_for 45
  /\ pages_for 25 <= pages_for 45.
Proof.
  destruct total_pages_is_ceiling as (Hall & Harea & _ & _ & Hceil & _ & Hmono).
  split; [exact (Hall (steady 0 db45) 0 db45 eq_refl)|].
  split; [exact (Harea (steady 0 db45) 0 db45 "SZ"%string eq_refl)|].
  split; [apply Hceil; lia | apply Hmono; lia].
Defined.

(** ** Validation *)

Lemma page_below_one_unfiltered (n : Z) (check_total : bool) (w : World) :
  n < 1 ->
  run (get_stocks_by_page_number n check_total) w = (Raise (ValueError page_below_one), []).
Proof.
  intros Hn. unfold run, get_stocks_by_page_number.
  apply Z.ltb_lt in Hn. now rewrite Hn.
Qed.

Lemma page_below_one_area (n : Z) (v : string) (w : World) :
  n < 1 ->
  run (get_stocks_by_page_and_area n v) w = (Raise (ValueError page_below_one), []).
Proof.
  intros Hn. unfold run, get_stocks_by_page_and_area.
  apply Z.ltb_lt in Hn. now rewrite Hn.
Qed.

Lemma page_below_one_industry (n : Z) (v : string) (w : World) :
  n < 1 ->
  run (get_stocks_by_page_and_industry n v) w = (Raise (ValueError page_below_one), []).
Proof.
  intros Hn. unfold run, get_stocks_by_page_and_industry.
  apply Z.ltb_lt in Hn. now rewrite Hn.
Qed.

(** C9 as stated fails for the four count helpers, which take a text and do
    not validate it: called with the empty text, [get_area_total_records]
    sends its count and returns 0 on one dataset and 1 on another, and neither
    it nor [get_area_total_pages], [get_industry_total_records] or
    [get_industry_total_pages] is refused unread. *)
Lemma count_helpers_do_not_validate :
  run (get_area_total_records EmptyString) (steady 0 db45)
  = (Return 0, [stmt (Q_area_count EmptyString)])
  /\ run (get_area_total_records EmptyString)
       (steady 0 (stocks_only (sample_stocks 1 EmptyString "bank")))
     = (Return 1, [stmt (Q_area_count EmptyString)])
  /\ ~ rejected_unread (get_area_total_records EmptyString)
  /\ ~ rejected_unread (get_area_total_pages EmptyString)
  /\ ~ rejected_unread (get_industry_total_records EmptyString)
  /\ ~ rejected_unread (get_industry_total_pages EmptyString).
Proof.
  split; [reflexivity|]. split; [reflexivity|].
  repeat split; intros [msg Hall]; specialize (Hall (steady 0 db45)); discriminate Hall.
Qed.

(** C9, amended.  In the eight methods that validate their arguments,
    whenever a page number is below 1 or a required text argument is empty,
    the method raises its [ValueError] in every world alike and the log of
    statements stays empty: nothing is read before, or for, the validation.
    The four count helpers validate nothing: whatever the text, the empty one
    included, they send their count and return what the dataset gives. *)
Theorem validation_precedes_storage :
  (forall (n : Z) (check_total : bool),
      n < 1 -> rejected_unread (get_stocks_by_page_number n check_total))
  /\ (forall (n : Z) (area : string),
      n < 1 \/ area = EmptyString -> rejected_unread (get_stocks_by_page_and_area n area))
  /\ (forall (n : Z) (industry : string),
      n < 1 \/ industry = EmptyString ->
      rejected_unread (get_stocks_by_page_and_industry n industry))
  /\ rejected_unread (get_stock_by_symbol EmptyString)
  /\ rejected_unread (get_stock_by_name EmptyString)
  /\ rejected_unread (get_recent_7_days_data EmptyString)
  /\ rejected_unread (get_latest_technical_indicators EmptyString)
  /\ rejected_unread (get_today_predictions_by_ts_code EmptyString)
  /\ (forall (w : World) (curdate : Z) (db : Database) (v : string),
      w 0%nat = Up curdate db ->
      run (get_area_total_records v) w
      = (Return (count_rows (filter (area_is v) (stocks db))), [stmt (Q_area_count v)])
      /\ run (get_area_total_pages v) w
         = (Return (pages_for (count_rows (filter (area_is v) (stocks db)))),
            [stmt (Q_area_count v)])
      /\ run (get_industry_total_records v) w
         = (Return (count_rows (filter (industry_is v) (stocks db))),
            [stmt (Q_industry_count v)])
      /\ run (get_industry_total_pages v) w
         = (Return (pages_for (count_rows (filter (industry_is v) (stocks db)))),
            [stmt (Q_industry_count v)])).
Proof.
  split; [|split; [|split]].
  - intros n check_total Hn. exists page_below_one. intros w.
    now apply page_below_one_unfiltered.
  - intros n area Hbad.
    destruct (Z.ltb_spec n 1) as [Hn|Hn].
    + exists page_below_one. intros w. now apply page_below_one_area.
    + destruct Hbad as [Hlt| ->]; [lia|].
      exists empty_area. intros w. unfold run, get_stocks_by_page_and_area.
      apply Z.ltb_ge in Hn. now rewrite Hn.
  - intros n industry Hbad.
    destruct (Z.ltb_spec n 1) as [Hn|Hn].
    + exists page_below_one. intros w. now apply page_below_one_industry.
    + destruct Hbad as [Hlt| ->]; [lia|].
      exists empty_industry. intros w. unfold run, get_stocks_by_page_and_industry.
      apply Z.ltb_ge in Hn. now rewrite Hn.
  - do 5 (split; [eexists; intros w; reflexivity|]).
    intros w curdate db v Hw. unfold run.
    rewrite (get_area_total_records_up w [] curdate db Hw),
      (get_area_total_pages_up w [] curdate db Hw),
      (get_industry_total_records_up w [] curdate db Hw),
      (get_industry_total_pages_up w [] curdate db Hw).
    now repeat split.
Qed.

Lemma validation_precedes_storage_witness :
  rejected_unread (get_stocks_by_page_number 0 true)
  /\ rejected_unread (get_stocks_by_page_and_area 3 EmptyString)
  /\ rejected_unread (get_stocks_by_page_and_industry (-1) "bank")
  /\ run (get_area_total_records EmptyString) (steady 0 db45)
     = (Return (count_rows (filter (area_is EmptyString) (stocks db45))),
        [stmt (Q_area_count EmptyString)]).
Proof.
  destruct validation_precedes_storage
    as (Hpage & Harea & Hind & _ & _ & _ & _ & _ & Hcount).
  split; [apply Hpage; lia|].
  split; [apply Harea; right; reflexivity|].
  split; [apply Hind; left; lia|].
  apply (Hcount (steady 0 db45) 0 db45 EmptyString eq_refl).
Defined.

(** C1, unfiltered list.  On an empty [stocks] table the default call for
    page 1 does not return an empty list: the bound check compares 1 with a
    page count of 0 and raises, having sent only the count. *)
Theorem empty_table_page_one_raises :
  run (get_stocks_by_page_number 1 true) (steady 0 (stocks_only []))
  = (Raise (ValueError (page_exceeds_max 1 0)), [stmt Q_stocks_count]).
Proof. reflexivity. Qed.

(** The filtered siblings do return an empty list when nothing matches. *)
Lemma empty_filter_returns_nothing
  (w : World) (curdate : Z) (db : Database) (n : Z) (v : string) :
  1 <= n -> v <> EmptyString -> w 0%nat = Up curdate db ->
  (count_rows (filter (area_is v) (stocks db)) = 0 ->
   run (get_stocks_by_page_and_area n v) w = (Return [], [stmt (Q_area_count v)]))
  /\ (count_rows (filter (industry_is v) (stocks db)) = 0 ->
      run (get_stocks_by_page_and_industry n v) w
      = (Return [], [stmt (Q_industry_count v)])).
Proof.
  intros Hn Hv Hw. apply Z.ltb_ge in Hn. apply str_nonempty in Hv.
  split; intros Hc.
  - unfold run, get_stocks_by_page_and_area, bind. rewrite Hn, Hv.
    rewrite (get_area_total_records_up w [] curdate db Hw), Hc. reflexivity.
  - unfold run, get_stocks_by_page_and_industry, bind. rewrite Hn, Hv.
    rewrite (get_industry_total_records_up w [] curdate db Hw), Hc. reflexivity.
Qed.

(** C6.  A page number below 1 raises the "page must be at least 1"
    [ValueError] in all three paginated fetches; with a positive page count
    and a page number above it, each raises the "page exceeds the maximum"
    [ValueError], which carries the requested page and the page count. *)
Theorem page_number_validation :
  (forall (w : World) (n : Z) (check_total : bool) (v : string),
      n < 1 ->
      fst (run (get_stocks_by_page_number n check_total) w) = Raise (ValueError page_below_one)
      /\ fst (run (get_stocks_by_page_and_area n v) w) = Raise (ValueError page_below_one)
      /\ fst (run (get_stocks_by_page_and_industry n v) w)
         = Raise (ValueError page_below_one))
  /\ (forall (curdate : Z) (db : Database) (n : Z),
      0 < pages_for (count_rows (stocks db)) ->
      pages_for (count_rows (stocks db)) < n ->
      fst (run (get_stocks_by_page_number n true) (steady curdate db))
      = Raise (ValueError (page_exceeds_max n (pages_for (count_rows (stocks db))))))
  /\ (forall (curdate : Z) (db : Database) (n : Z) (v : string),
      v <> EmptyString ->
      0 < pages_for (count_rows (filter (area_is v) (stocks db))) ->
      pages_for (count_rows (filter (area_is v) (stocks db))) < n ->
      fst (run (get_stocks_by_page_and_area n v) (steady curdate db))
      = Raise (ValueError
                 (page_exceeds_max n (pages_for (count_rows (filter (area_is v) (stocks db)))))))
  /\ (forall (curdate : Z) (db : Database) (n : Z) (v : string),
      v <> EmptyString ->
      0 < pages_for (count_rows (filter (industry_is v) (stocks db))) ->
      pages_for (count_rows (filter (industry_is v) (stocks db))) < n ->
      fst (run (get_stocks_by_page_and_industry n v) (steady curdate db))
      = Raise (ValueError
                 (page_exceeds_max n
                    (pages_for (count_rows (filter (industry_is v) (stocks db))))))).
Proof.
  split; [|split; [|split]].
  - intros w n check_total v Hn.
    rewrite page_below_one_unfiltered, page_below_one_area, page_below_one_industry
      by assumption.
    now repeat split.
  - intros curdate db n Hpos Hgt.
    unfold run, get_stocks_by_page_number, bind.
    replace (n <? 1) with false by (symmetry; apply Z.ltb_ge; lia).
    rewrite (get_total_pages_up (steady curdate db) [] curdate db eq_refl).
    replace (n >? _) with true by (symmetry; apply Z.gtb_lt; lia).
    reflexivity.
  - intros curdate db n v Hv Hpos Hgt.
    unfold run, get_stocks_by_page_and_area, bind.
    replace (n <? 1) with false by (symmetry; apply Z.ltb_ge; lia).
    rewrite (str_nonempty v Hv).
    rewrite (get_area_total_records_up (steady curdate db) [] curdate db eq_refl).
    destruct (Z.eqb_spec (count_rows (filter (area_is v) (stocks db))) 0) as [E|E];
      [rewrite E in Hpos; discriminate Hpos|].
    rewrite (get_area_total_pages_up (steady curdate db) _ curdate db eq_refl).
    replace (n >? _) with true by (symmetry; apply Z.gtb_lt; lia).
    reflexivity.
  - intros curdate db n v Hv Hpos Hgt.
    unfold run, get_stocks_by_page_and_industry, bind.
    replace (n <? 1) with false by (symmetry; apply Z.ltb_ge; lia).
    rewrite (str_nonempty v Hv).
    rewrite (get_industry_total_records_up (steady curdate db) [] curdate db eq_refl).
    destruct (Z.eqb_spec (count_rows (filter (industry_is v) (stocks db))) 0) as [E|E];
      [rewrite E in Hpos; discriminate Hpos|].
    rewrite (get_industry_total_pages_up (steady curdate db) _ curdate db eq_refl).
    replace (n >? _) with true by (symmetry; apply Z.gtb_lt; lia).
    reflexivity.
Qed.

Lemma page_number_validation_witness :
  fst (run (get_stocks_by_page_number 0 true) (steady 0 db45))
  = Raise (ValueError page_below_one)
  /\ fst (run (get_stocks_by_page_number 4 true) (steady 0 db45))
     = Raise (ValueError (page_exceeds_max 4 3))
  /\ fst (run (get_stocks_by_page_and_area 4 "SZ") (steady 0 db45))
     = Raise (ValueError (page_exceeds_max 4 3))
  /\ fst (run (get_stocks_by_page_and_industry 4 "bank") (steady 0 db45))
     = Raise (ValueError (page_exceeds_max 4 3)).
Proof.
  destruct page_number_validation as (Hlow & Hall & Harea & Hind).
  split; [apply (Hlow (steady 0 db45) 0 true "SZ"%string); lia|].
  split; [apply (Hall 0 db45 4); reflexivity|].
  split.
  - apply (Harea 0 db45 4 "SZ"%string); [discriminate | reflexivity | reflexivity].
  - apply (Hind 0 db45 4 "bank"%string); [discriminate | reflexivity | reflexivity].
Defined.

(** ** The unfiltered list *)

Lemma limit_offset_past_end {A : Type} (limit offset : Z) (l : list A) :
  0 <= offset -> count_rows l <= offset -> limit_offset limit offset l = [].
Proof.
  intros Ho Hc. unfold limit_offset, count_rows in *.
  rewrite skipn_all2 by lia. apply firstn_nil.
Qed.

Lemma limit_offset_inside {A : Type} (limit offset : Z) (l : list A) :
  0 < limit -> 0 <= offset -> offset < count_rows l ->
  no_rows (limit_offset limit offset l) = false.
Proof.
  intros Hl Ho Hc.
  pose proof (count_limit_offset limit offset l ltac:(lia) Ho) as Hlen.
  destruct (limit_offset limit offset l); [|reflexivity].
  unfold count_rows in *. simpl in Hlen. lia.
Qed.

(** The fetch of [get_stocks_by_page_number] on a reachable server. *)
Lemma fetch_page_up (w : World) (log : list Statement) (curdate : Z) (db : Database) (n : Z) :
  1 <= n -> w (List.length log) = Up curdate db ->
  execute (Q_stocks_page 20 (20 * (n - 1))) w log
  = (Return (limit_offset 20 (20 * (n - 1)) (order_by StockRecord.id (stocks db))),
     stmt (Q_stocks_page 20 (20 * (n - 1))) :: log).
Proof.
  intros Hn Hw.
  apply (execute_page_up w log curdate db Hw (Q_stocks_page 20 (20 * (n - 1))));
    [reflexivity | lia | lia].
Qed.

Lemma count_order_by {A : Type} (key : A -> Z) (l : list A) :
  count_rows (order_by key l) = count_rows l.
Proof. unfold count_rows. now rewrite length_order_by. Qed.

(** C10.  With [check_total] false the call sends the fetch and nothing else:
    a page number below 1 still raises, and every [n >= 1] whose offset
    [20 * (n - 1)] is at or beyond the number of rows gets the empty list. *)
Theorem unchecked_page_number
  (w : World) (curdate : Z) (db : Database) (n : Z) :
  (n < 1 ->
   run (get_stocks_by_page_number n false) w = (Raise (ValueError page_below_one), []))
  /\ (1 <= n -> w 0%nat = Up curdate db -> count_rows (stocks db) <= 20 * (n - 1) ->
      run (get_stocks_by_page_number n false) w
      = (Return [], [stmt (Q_stocks_page 20 (20 * (n - 1)))])).
Proof.
  split.
  - apply page_below_one_unfiltered.
  - intros Hn Hw Hc.
    unfold run, get_stocks_by_page_number, bind, try_except, ret.
    replace (n <? 1) with false by (symmetry; apply Z.ltb_ge; lia).
    rewrite (fetch_page_up w [] curdate db n Hn Hw).
    rewrite andb_false_r.
    rewrite limit_offset_past_end; [reflexivity | lia |].
    now rewrite count_order_by.
Qed.

Lemma unchecked_page_number_witness :
  run (get_stocks_by_page_number 0 false) (steady 0 db45)
  = (Raise (ValueError page_below_one), [])
  /\ run (get_stocks_by_page_number 4 false) (steady 0 db45)
     = (Return [], [stmt (Q_stocks_page 20 (20 * (4 - 1)))]).
Proof.
  split.
  - apply (proj1 (unchecked_page_number (steady 0 db45) 0 db45 0)). lia.
  - apply (proj2 (unchecked_page_number (steady 0 db45) 0 db45 4));
      [lia | reflexivity | vm_compute; discriminate].
Defined.

(** C3.  On an unchanged dataset of [total] rows and for
    [1 <= n <= total_pages], the default call returns the slice of the
    id-ordered table that starts at offset [20 * (n - 1)]; it has
    [min 20 (total - 20 * (n - 1))] rows, in ascending id order. *)
Theorem page_of_steady_dataset (curdate : Z) (db : Database) (n : Z) :
  1 <= n -> n <= pages_for (count_rows (stocks db)) ->
  exists rows : list StockRecord.t,
    fst (run (get_stocks_by_page_number n true) (steady curdate db)) = Return rows
    /\ rows = firstn 20 (skipn (Z.to_nat (20 * (n - 1)))
                           (order_by StockRecord.id (stocks db)))
    /\ count_rows rows = Z.min 20 (count_rows (stocks db) - 20 * (n - 1))
    /\ StronglySorted (fun a b => StockRecord.id a <= StockRecord.id b) rows.
Proof.
  intros Hn Hle.
  pose proof (pages_for_bounds _ (count_rows_nonneg (stocks db))) as Hb.
  exists (limit_offset 20 (20 * (n - 1)) (order_by StockRecord.id (stocks db))).
  split; [|split; [|split]].
  - unfold run, get_stocks_by_page_number, bind, try_except, ret.
    replace (n <? 1) with false by (symmetry; apply Z.ltb_ge; lia).
    rewrite (get_total_pages_up (steady curdate db) [] curdate db eq_refl).
    replace (n >? _) with false by (symmetry; rewrite Z.gtb_ltb; apply Z.ltb_ge; lia).
    rewrite (fetch_page_up (steady curdate db) _ curdate db n Hn eq_refl).
    rewrite limit_offset_inside; [reflexivity | lia | lia |].
    rewrite count_order_by. lia.
  - reflexivity.
  - rewrite count_limit_offset, count_order_by by lia. lia.
  - apply limit_offset_sorted. apply (order_by_sorted StockRecord.id).
Qed.

Lemma page_of_steady_dataset_witness :
  exists rows : list StockRecord.t,
    fst (run (get_stocks_by_page_number 3 true) (steady 0 db45)) = Return rows
    /\ rows = firstn 20 (skipn (Z.to_nat (20 * (3 - 1)))
                           (order_by StockRecord.id (stocks db45)))
    /\ count_rows rows = Z.min 20 (count_rows (stocks db45) - 20 * (3 - 1))
    /\ StronglySorted (fun a b => StockRecord.id a <= StockRecord.id b) rows.
Proof.
  apply (page_of_steady_dataset 0 db45 3); [lia | vm_compute; discriminate].
Defined.

(** The scenario of 45 stocks: 20 rows on page 1, 5 rows on page 3, and page
    4 refused with the requested page and the page count. *)
Example forty_five_stocks :
  (exists rows, fst (run (get_stocks_by_page_number 1 true) (steady 0 db45)) = Return rows
                /\ count_rows rows = 20
                /\ map StockRecord.id (firstn 3 rows) = [1; 2; 3])
  /\ (exists rows, fst (run (get_stocks_by_page_number 3 true) (steady 0 db45)) = Return rows
                   /\ map StockRecord.id rows = [41; 42; 43; 44; 45])
  /\ fst (run (get_stocks_by_page_number 4 true) (steady 0 db45))
     = Raise (ValueError (page_exceeds_max 4 3)).
Proof.
  split; [|split].
  - eexists. split; [reflexivity|]. split; reflexivity.
  - eexists. split; reflexivity.
  - reflexivity.
Qed.

(** C2 as stated fails: the count sees 45 rows, so page 3 passes the bound
    check; the fetch and the second count see 40 rows, the fetch at offset 40
    is empty, and the call raises the "beyond the data range" [ValueError]
    instead of returning the empty page. *)
Lemma shrinking_dataset_raises :
  3 <= pages_for (count_rows (stocks db45))
  /\ count_rows (stocks db40) < count_rows (stocks db45)
  /\ run (get_stocks_by_page_number 3 true) shrinking
     = (Raise (ValueError (page_beyond_data 3 40)),
        [stmt Q_stocks_count; stmt (Q_stocks_page 20 40); stmt Q_stocks_count]).
Proof.
  split; [vm_compute; discriminate|].
  split; reflexivity.
Qed.

(** C2, amended.  Once the bound check has passed on the first count, the
    default call returns whatever the fetch finds at offset [20 * (n - 1)] in
    the dataset as it is then (at most 20 rows, fewer when the dataset
    shrank), with one exception: when the fetch finds nothing for a page
    [n > 1], the table is counted again, and if that count is at most the
    offset the call raises the "beyond the data range" [ValueError] carrying
    [n] and that count. *)
Theorem page_of_changing_dataset
  (w : World) (c0 c1 c2 : Z) (db0 db1 db2 : Database) (n : Z) :
  w 0%nat = Up c0 db0 -> w 1%nat = Up c1 db1 -> w 2%nat = Up c2 db2 ->
  1 <= n -> n <= pages_for (count_rows (stocks db0)) ->
  let offset := 20 * (n - 1) in
  let rows := limit_offset 20 offset (order_by StockRecord.id (stocks db1)) in
  count_rows rows = Z.min 20 (Z.max 0 (count_rows (stocks db1) - offset))
  /\ fst (run (get_stocks_by_page_number n true) w)
     = if no_rows rows && (n >? 1) && (count_rows (stocks db2) <=? offset)
       then Raise (ValueError (page_beyond_data n (count_rows (stocks db2))))
       else Return rows.
Proof.
  intros Hw0 Hw1 Hw2 Hn Hle offset rows. split.
  - unfold rows. rewrite count_limit_offset, count_order_by by (unfold offset; lia).
    reflexivity.
  - unfold run, get_stocks_by_page_number, bind, try_except, ret.
    replace (n <? 1) with false by (symmetry; apply Z.ltb_ge; lia).
    rewrite (get_total_pages_up w [] c0 db0 Hw0).
    replace (n >? _) with false by (symmetry; rewrite Z.gtb_ltb; apply Z.ltb_ge; lia).
    rewrite (fetch_page_up w [stmt Q_stocks_count] c1 db1 n Hn Hw1).
    fold offset. fold rows. rewrite andb_true_r.
    destruct (no_rows rows && (n >? 1)) eqn:E; simpl.
    + rewrite (get_total_records_up w [stmt (Q_stocks_page 20 offset); stmt Q_stocks_count]
                 c2 db2 Hw2).
      now destruct (count_rows (stocks db2) <=? offset).
    + reflexivity.
Qed.

Lemma page_of_changing_dataset_witness :
  let rows := limit_offset 20 (20 * (3 - 1)) (order_by StockRecord.id (stocks db40)) in
  count_rows rows = Z.min 20 (Z.max 0 (count_rows (stocks db40) - 20 * (3 - 1)))
  /\ fst (run (get_stocks_by_page_number 3 true) shrinking)
     = if no_rows rows && (3 >? 1) && (count_rows (stocks db40) <=? 20 * (3 - 1))
       then Raise (ValueError (page_beyond_data 3 (count_rows (stocks db40))))
       else Return rows.
Proof.
  apply (page_of_changing_dataset shrinking 0 0 0 db45 db40 db40 3);
    [reflexivity | reflexivity | reflexivity | lia | vm_compute; discriminate].
Defined.

(** A shrunk dataset that still has rows at the offset: the short page comes
    back. *)
Example shrinking_dataset_short_page :
  exists rows,
    fst (run (get_stocks_by_page_number 2 true) (fun k => match k with
                                                            | O => Up 0 db45
                                                            | _ => Up 0 (stocks_only (sample_stocks 25 "SZ" "bank"))
                                                            end))
    = Return rows
    /\ map StockRecord.id rows = [21; 22; 23; 24; 25].
Proof. eexists. split; reflexivity. Qed.

(** ** The filtered lists *)

Lemma fetch_area_page_up
  (w : World) (log : list Statement) (curdate : Z) (db : Database)
  (v : string) (limit offset : Z) :
  w (List.length log) = Up curdate db -> 0 <= limit -> 0 <= offset ->
  execute (Q_area_page v limit offset) w log
  = (Return (limit_offset limit offset
               (order_by StockRecord.id (filter (area_is v) (stocks db)))),
     stmt (Q_area_page v limit offset) :: log).
Proof.
  intros Hw Hl Ho.
  apply (execute_page_up w log curdate db Hw (Q_area_page v limit offset));
    [reflexivity | lia | lia].
Qed.

Lemma fetch_industry_page_up
  (w : World) (log : list Statement) (curdate : Z) (db : Database)
  (v : string) (limit offset : Z) :
  w (List.length log) = Up curdate db -> 0 <= limit -> 0 <= offset ->
  execute (Q_industry_page v limit offset) w log
  = (Return (limit_offset limit offset
               (order_by StockRecord.id (filter (industry_is v) (stocks db)))),
     stmt (Q_industry_page v limit offset) :: log).
Proof.
  intros Hw Hl Ho.
  apply (execute_page_up w log curdate db Hw (Q_industry_page v limit offset));
    [reflexivity | lia | lia].
Qed.

Lemma exact_limit (count n : Z) :
  0 < count -> 1 <= n -> n <= pages_for count ->
  let limit := if n <? pages_for count then 20 else count - 20 * (n - 1) in
  1 <= limit <= 20 /\ limit <= count - 20 * (n - 1).
Proof.
  intros Hc Hn Hle.
  pose proof (pages_for_bounds count ltac:(lia)) as Hb.
  destruct (Z.ltb_spec n (pages_for count)); cbv beta iota zeta; lia.
Qed.

(** C4.  On an unchanged dataset, for a filter value with [count > 0]
    matching rows and [1 <= n <= total_pages], the area and the industry
    fetch ask for exactly 20 rows when [n < total_pages] and for exactly
    [count - 20 * (n - 1)] rows when [n = total_pages], and get that many; the
    last page therefore has [count - 20 * (total_pages - 1)] rows, at least 1
    and at most 20. *)
Theorem filtered_page_limit (curdate : Z) (db : Database) (n : Z) (v : string) :
  v <> EmptyString -> 1 <= n ->
  (0 < count_rows (filter (area_is v) (stocks db)) ->
   n <= pages_for (count_rows (filter (area_is v) (stocks db))) ->
   exact_page (run (get_stocks_by_page_and_area n v) (steady curdate db))
     (fun limit offset => stmt (Q_area_page v limit offset))
     (filter (area_is v) (stocks db)) n)
  /\ (0 < count_rows (filter (industry_is v) (stocks db)) ->
      n <= pages_for (count_rows (filter (industry_is v) (stocks db))) ->
      exact_page (run (get_stocks_by_page_and_industry n v) (steady curdate db))
        (fun limit offset => stmt (Q_industry_page v limit offset))
        (filter (industry_is v) (stocks db)) n).
Proof.
  intros Hv Hn. apply str_nonempty in Hv.
  split; intros Hc Hle; pose proof (exact_limit _ n Hc Hn Hle) as [Hlim Hfit].
  - unfold exact_page, run, get_stocks_by_page_and_area, bind, try_except.
    replace (n <? 1) with false by (symmetry; apply Z.ltb_ge; lia).
    rewrite Hv.
    rewrite (get_area_total_records_up (steady curdate db) [] curdate db eq_refl).
    replace (_ =? 0) with false by (symmetry; apply Z.eqb_neq; lia).
    rewrite (get_area_total_pages_up (steady curdate db) _ curdate db eq_refl).
    replace (n >? _) with false by (symmetry; rewrite Z.gtb_ltb; apply Z.ltb_ge; lia).
    rewrite (fetch_area_page_up (steady curdate db) _ curdate db v _ _ eq_refl) by lia.
    cbn [fst snd hd_error].
    repeat split; try lia.
    rewrite count_limit_offset, count_order_by by lia. lia.
  - unfold exact_page, run, get_stocks_by_page_and_industry, bind, try_except.
    replace (n <? 1) with false by (symmetry; apply Z.ltb_ge; lia).
    rewrite Hv.
    rewrite (get_industry_total_records_up (steady curdate db) [] curdate db eq_refl).
    replace (_ =? 0) with false by (symmetry; apply Z.eqb_neq; lia).
    rewrite (get_industry_total_pages_up (steady curdate db) _ curdate db eq_refl).
    replace (n >? _) with false by (symmetry; rewrite Z.gtb_ltb; apply Z.ltb_ge; lia).
    rewrite (fetch_industry_page_up (steady curdate db) _ curdate db v _ _ eq_refl) by lia.
    cbn [fst snd hd_error].
    repeat split; try lia.
    rewrite count_limit_offset, count_order_by by lia. lia.
Qed.

Lemma filtered_page_limit_witness :
  exact_page (run (get_stocks_by_page_and_area 3 "SZ") (steady 0 db45))
    (fun limit offset => stmt (Q_area_page "SZ" limit offset))
    (filter (area_is "SZ") (stocks db45)) 3
  /\ exact_page (run (get_stocks_by_page_and_industry 1 "bank") (steady 0 db45))
       (fun limit offset => stmt (Q_industry_page "bank" limit offset))
       (filter (industry_is "bank") (stocks db45)) 1.
Proof.
  split.
  - apply (proj1 (filtered_page_limit 0 db45 3 "SZ"%string ltac:(discriminate) ltac:(lia)));
      [reflexivity | vm_compute; discriminate].
  - apply (proj2 (filtered_page_limit 0 db45 1 "bank"%string ltac:(discriminate) ltac:(lia)));
      [reflexivity | vm_compute; discriminate].
Defined.

(** 45 matching rows: page 2 asks for 20 rows, page 3 for the 5 that are left. *)
Example forty_five_in_area :
  run (get_stocks_by_page_and_area 2 "SZ") (steady 0 db45)
  = (Return (limit_offset 20 20 (order_by StockRecord.id (stocks db45))),
     [stmt (Q_area_page "SZ" 20 20); stmt (Q_area_count "SZ"); stmt (Q_area_count "SZ")])
  /\ run (get_stocks_by_page_and_area 3 "SZ") (steady 0 db45)
     = (Return (limit_offset 5 40 (order_by StockRecord.id (stocks db45))),
        [stmt (Q_area_page "SZ" 5 40); stmt (Q_area_count "SZ"); stmt (Q_area_count "SZ")]).
Proof. split; reflexivity. Qed.

(** ** Point lookups *)

Lemma find_no_match {A : Type} (f : A -> bool) (l : list A) :
  (forall r, In r l -> f r = false) -> find f l = None.
Proof.
  induction l as [|x l IH]; simpl; intros Hall; [reflexivity|].
  rewrite (Hall x (or_introl eq_refl)). apply IH. intros r Hr. apply Hall. now right.
Qed.

Lemma lookup_outcome {R : Type} (q : Query R) (w : World) (wrap : string -> ExceptionMsg) :
  (exists r, fst (try_except (execute q) (fun e => raise (Exception (wrap e))) w []) = Return r)
  \/ (exists msg, fst (try_except (execute q) (fun e => raise (Exception (wrap e))) w [])
                  = Raise (Exception msg)).
Proof.
  unfold try_except, execute, raise. simpl List.length.
  destruct (w 0%nat) as [curdate db|e].
  - destruct (answer q curdate db) as [e|r]; simpl; eauto.
  - simpl. eauto.
Qed.

(** C7.  [get_stock_by_symbol] and [get_stock_by_name] raise a [ValueError]
    exactly when the value is the empty string; for a non-empty value that no
    row carries they return [None]. *)
Theorem point_lookup (w : World) (v : string) :
  ((exists msg, fst (run (get_stock_by_symbol v) w) = Raise (ValueError msg))
   <-> v = EmptyString)
  /\ ((exists msg, fst (run (get_stock_by_name v) w) = Raise (ValueError msg))
      <-> v = EmptyString)
  /\ (forall (curdate : Z) (db : Database),
         v <> EmptyString -> w 0%nat = Up curdate db ->
         (forall r, In r (stocks db) -> StockRecord.symbol r <> v) ->
         run (get_stock_by_symbol v) w = (Return None, [stmt (Q_stock_by_symbol v)]))
  /\ (forall (curdate : Z) (db : Database),
         v <> EmptyString -> w 0%nat = Up curdate db ->
         (forall r, In r (stocks db) -> StockRecord.name r <> v) ->
         run (get_stock_by_name v) w = (Return None, [stmt (Q_stock_by_name v)])).
Proof.
  split; [|split; [|split]].
  - unfold run, get_stock_by_symbol. split.
    + intros [msg Hmsg]. destruct v as [|a v]; [reflexivity|]. simpl in Hmsg.
      destruct (lookup_outcome (Q_stock_by_symbol (String a v)) w query_error)
        as [[r Hr]|[m Hm]]; congruence.
    + intros ->. now exists empty_symbol.
  - unfold run, get_stock_by_name. split.
    + intros [msg Hmsg]. destruct v as [|a v]; [reflexivity|]. simpl in Hmsg.
      destruct (lookup_outcome (Q_stock_by_name (String a v)) w query_error)
        as [[r Hr]|[m Hm]]; congruence.
    + intros ->. now exists empty_name.
  - intros curdate db Hv Hw Hnone.
    unfold run, get_stock_by_symbol, try_except. rewrite (str_nonempty v Hv).
    rewrite (execute_up w [] curdate db Hw (Q_stock_by_symbol v) None); [reflexivity|].
    simpl. f_equal. apply find_no_match. intros r Hr.
    apply String.eqb_neq. now apply Hnone.
  - intros curdate db Hv Hw Hnone.
    unfold run, get_stock_by_name, try_except. rewrite (str_nonempty v Hv).
    rewrite (execute_up w [] curdate db Hw (Q_stock_by_name v) None); [reflexivity|].
    simpl. f_equal. apply find_no_match. intros r Hr.
    apply String.eqb_neq. now apply Hnone.
Qed.

Lemma point_lookup_witness :
  run (get_stock_by_symbol "DOESNOTEXIST") (steady 0 db45)
  = (Return None, [stmt (Q_stock_by_symbol "DOESNOTEXIST")])
  /\ (exists msg, fst (run (get_stock_by_name EmptyString) (steady 0 db45))
                  = Raise (ValueError msg)).
Proof.
  split.
  - apply (proj1 (proj2 (proj2 (point_lookup (steady 0 db45) "DOESNOTEXIST"))) 0 db45);
      [discriminate | reflexivity |].
    intros r Hr. vm_compute in Hr.
    repeat (destruct Hr as [<-|Hr]; [discriminate|]). destruct Hr.
  - apply (proj1 (proj2 (point_lookup (steady 0 db45) EmptyString))). reflexivity.
Defined.

(** ** Recent trading days *)

Lemma sorted_weaken {A : Type} (R R' : A -> A -> Prop) (l : list A) :
  (forall a b, R a b -> R' a b) -> StronglySorted R l -> StronglySorted R' l.
Proof.
  intros Himp. induction 1 as [|x l Hs IH Hall]; constructor; [exact IH|].
  eapply Forall_impl; [|exact Hall]. intros b. apply Himp.
Qed.

Lemma order_by_desc_sorted {A : Type} (key : A -> Z) (l : list A) :
  StronglySorted (fun a b => key a >= key b) (order_by_desc key l).
Proof.
  apply (sorted_weaken (ascending (fun r => - key r))).
  - unfold ascending. intros a b. lia.
  - apply order_by_sorted.
Qed.

Lemma WEEKDAY_range (d : Z) : 0 <= WEEKDAY d <= 6.
Proof.
  unfold WEEKDAY. pose proof (Z.mod_pos_bound (d + 3) 7 ltac:(lia)). lia.
Qed.

(** Whatever the day, seven distinct weekdays lie among it and the 13 days
    before it. *)
Lemma seven_weekdays (curdate : Z) :
  exists days : list Z,
    NoDup days /\ List.length days = 7%nat
    /\ forall d, In d days -> curdate - 14 <= d <= curdate /\ WEEKDAY d < 5.
Proof.
  pose proof (WEEKDAY_range curdate) as Hr.
  assert (Hcase : WEEKDAY curdate = 0 \/ WEEKDAY curdate = 1 \/ WEEKDAY curdate = 2
                  \/ WEEKDAY curdate = 3 \/ WEEKDAY curdate = 4 \/ WEEKDAY curdate = 5
                  \/ WEEKDAY curdate = 6) by lia.
  clear Hr.
  assert (Hshift : forall k, WEEKDAY (curdate - k) = (WEEKDAY curdate - k) mod 7).
  { intros k. unfold WEEKDAY.
    replace (curdate - k + 3) with (curdate + 3 - k) by lia.
    symmetry. apply Zminus_mod_idemp_l. }
  repeat (destruct Hcase as [E|Hcase]); try rename Hcase into E;
    match type of E with
    | _ = ?c =>
        let ks := eval vm_compute in
          (firstn 7 (filter (fun k => (c - k) mod 7 <? 5) [0; 1; 2; 3; 4; 5; 6; 7; 8; 9; 10; 11; 12; 13]))
        in exists (map (fun k => curdate - k) ks)
    end;
    (split;
     [ repeat (constructor; [simpl; intuition lia|]); constructor
     | split;
       [ reflexivity
       | intros d Hd; simpl in Hd;
         repeat (destruct Hd as [<-|Hd];
                 [split; [lia | rewrite Hshift, E; vm_compute; reflexivity]|]);
         destruct Hd ] ]).
Qed.

Lemma at_least_distinct {A : Type} (key : A -> Z) (days : list Z) (l : list A) :
  NoDup days -> (forall d, In d days -> exists r, In r l /\ key r = d) ->
  (List.length days <= List.length l)%nat.
Proof.
  intros Hnd Hall. rewrite <- (length_map key l).
  apply NoDup_incl_length; [exact Hnd|].
  intros d Hd. destruct (Hall d Hd) as (r & Hr & <-). now apply in_map.
Qed.

(** C8 as stated fails on the date bound: the statement has a lower bound on
    [trade_date] and no upper one.  On day 20000 (a Friday) a bar dated the
    Monday after, day 20003, is returned although it is not in the last 14
    days. *)
Lemma future_bar_is_returned :
  exists r : DailyBar.t,
    fst (run (get_recent_7_days_data "000001.SZ")
           (steady 20000 (bars_only (bars_on "000001.SZ" [20003]))))
    = Return [r]
    /\ DailyBar.ts_code r = "000001.SZ"%string
    /\ WEEKDAY (DailyBar.trade_date r) = 0
    /\ ~ (20000 - 14 <= DailyBar.trade_date r <= 20000).
Proof.
  eexists. split; [reflexivity|]. split; [reflexivity|]. split; [reflexivity|].
  simpl. lia.
Qed.

(** C8, amended.  For a non-empty [ts_code] and any dataset,
    [get_recent_7_days_data] returns at most 7 rows of the table; each has the
    given [ts_code], a trade date no earlier than 14 days before the server's
    current date (later dates are not excluded) and a weekday index from 0 to
    4; the rows come in descending order of trade date; and when every
    weekday from 14 days ago up to the current date has a bar of that ticker,
    exactly 7 rows come back. *)
Theorem recent_trading_days (w : World) (curdate : Z) (db : Database) (v : string) :
  v <> EmptyString -> w 0%nat = Up curdate db ->
  exists rows : list DailyBar.t,
    run (get_recent_7_days_data v) w = (Return rows, [stmt (Q_recent_daily v)])
    /\ (List.length rows <= 7)%nat
    /\ (forall r, In r rows ->
                  In r (stock_daily_data db)
                  /\ DailyBar.ts_code r = v
                  /\ curdate - 14 <= DailyBar.trade_date r
                  /\ 0 <= WEEKDAY (DailyBar.trade_date r) <= 4)
    /\ StronglySorted (fun a b => DailyBar.trade_date a >= DailyBar.trade_date b) rows
    /\ ((forall d, curdate - 14 <= d <= curdate -> WEEKDAY d < 5 ->
                   exists r, In r (stock_daily_data db)
                             /\ DailyBar.ts_code r = v /\ DailyBar.trade_date r = d) ->
        List.length rows = 7%nat).
Proof.
  intros Hv Hw.
  set (matching := filter (recent_weekday_bar curdate v) (stock_daily_data db)).
  exists (firstn 7 (order_by_desc DailyBar.trade_date matching)).
  split; [|split; [|split; [|split]]].
  - unfold run, get_recent_7_days_data, try_except. rewrite (str_nonempty v Hv).
    now rewrite (execute_up w [] curdate db Hw (Q_recent_daily v)
                   (firstn 7 (order_by_desc DailyBar.trade_date matching)) eq_refl).
  - rewrite length_firstn. lia.
  - intros r Hr. apply In_firstn in Hr. apply In_order_by in Hr.
    apply filter_In in Hr. destruct Hr as [Hin Hr]. unfold recent_weekday_bar in Hr.
    apply andb_prop in Hr. destruct Hr as [Hr Hwd].
    apply andb_prop in Hr. destruct Hr as [Hcode Hdate].
    apply String.eqb_eq in Hcode. apply Z.leb_le in Hdate. apply Z.ltb_lt in Hwd.
    pose proof (WEEKDAY_range (DailyBar.trade_date r)).
    unfold DATE_SUB in Hdate. repeat split; try assumption; lia.
  - apply firstn_sorted. apply order_by_desc_sorted.
  - intros Hfull.
    destruct (seven_weekdays curdate) as (days & Hnd & Hlen & Hdays).
    assert (Hmany : (List.length days <= List.length matching)%nat).
    { apply (at_least_distinct DailyBar.trade_date); [exact Hnd|].
      intros d Hd. destruct (Hdays d Hd) as [Hwin Hwd].
      destruct (Hfull d Hwin Hwd) as (r & Hin & Hcode & Hdate).
      exists r. split; [|exact Hdate].
      apply filter_In. split; [exact Hin|]. unfold recent_weekday_bar, DATE_SUB.
      rewrite Hdate.
      apply andb_true_intro. split; [apply andb_true_intro; split|].
      - now apply String.eqb_eq.
      - apply Z.leb_le. lia.
      - now apply Z.ltb_lt. }
    rewrite length_firstn. unfold order_by_desc. rewrite length_order_by. lia.
Qed.

Lemma recent_trading_days_witness :
  exists rows : list DailyBar.t,
    run (get_recent_7_days_data "000001.SZ") (steady 20000 ten_days_of_bars)
    = (Return rows, [stmt (Q_recent_daily "000001.SZ")])
    /\ (List.length rows <= 7)%nat
    /\ (forall r, In r rows ->
                  In r (stock_daily_data ten_days_of_bars)
                  /\ DailyBar.ts_code r = "000001.SZ"%string
                  /\ 20000 - 14 <= DailyBar.trade_date r
                  /\ 0 <= WEEKDAY (DailyBar.trade_date r) <= 4)
    /\ StronglySorted (fun a b => DailyBar.trade_date a >= DailyBar.trade_date b) rows
    /\ ((forall d, 20000 - 14 <= d <= 20000 -> WEEKDAY d < 5 ->
                   exists r, In r (stock_daily_data ten_days_of_bars)
                             /\ DailyBar.ts_code r = "000001.SZ"%string
                             /\ DailyBar.trade_date r = d) ->
        List.length rows = 7%nat).
Proof.
  apply (recent_trading_days (steady 20000 ten_days_of_bars) 20000 ten_days_of_bars
           "000001.SZ"); [discriminate | reflexivity].
Defined.

(** The scenario of a bar on every weekday of the last ten days: seven rows,
    the most recent first, the Saturday bar left out. *)
Example ten_days_of_bars_recent :
  exists rows,
    fst (run (get_recent_7_days_data "000001.SZ") (steady 20000 ten_days_of_bars))
    = Return rows
    /\ map DailyBar.trade_date rows = [20000; 19999; 19998; 19997; 19996; 19993; 19992].
Proof. eexists. split; reflexivity. Qed.

(** ** Storage failures *)
Section Leaks.
Context {A : Type}.

Lemma never_leaks_ret (a : A) : never_leaks (ret a).
Proof. intros w log e. discriminate. Qed.

Lemma never_leaks_value_error (msg : ValueErrorMsg) :
  never_leaks (raise (A := A) (ValueError msg)).
Proof. intros w log e. discriminate. Qed.

Lemma never_leaks_exception (msg : ExceptionMsg) :
  never_leaks (raise (A := A) (Exception msg)).
Proof. intros w log e. discriminate. Qed.

Lemma never_leaks_try_except (body : M A) (handler : string -> M A) :
  (forall e, never_leaks (handler e)) -> never_leaks (try_except body handler).
Proof.
  intros Hh w log e. unfold try_except.
  destruct (body w log) as [[a|[msg|e'|msg]] log']; try discriminate.
  apply Hh.
Qed.

Lemma never_leaks_bind {B : Type} (m : M B) (k : B -> M A) :
  never_leaks m -> (forall b, never_leaks (k b)) -> never_leaks (bind m k).
Proof.
  intros Hm Hk w log e. unfold bind.
  specialize (Hm w log). destruct (m w log) as [[b|x] log'].
  - apply Hk.
  - simpl in *. intros Heq. apply (Hm e). congruence.
Qed.
End Leaks.

Ltac leak_free :=
  repeat first
    [ apply never_leaks_ret
    | apply never_leaks_value_error
    | apply never_leaks_exception
    | apply never_leaks_try_except; intros ?
    | apply never_leaks_bind; [|intros ?]
    | match goal with
      | |- never_leaks (if ?b then _ else _) => destruct b
      end ].

(** No method of [StockQuery] lets a [SQLAlchemyError] out: whatever the
    server does at any round trip, a method that raises raises a [ValueError]
    or a wrapping [Exception]. *)
Theorem engine_wraps_storage_errors :
  never_leaks get_total_records
  /\ never_leaks get_total_pages
  /\ (forall n check_total, never_leaks (get_stocks_by_page_number n check_total))
  /\ (forall v, never_leaks (get_stock_by_symbol v))
  /\ (forall v, never_leaks (get_stock_by_name v))
  /\ (forall v, never_leaks (get_area_total_records v))
  /\ (forall v, never_leaks (get_area_total_pages v))
  /\ (forall n v, never_leaks (get_stocks_by_page_and_area n v))
  /\ (forall v, never_leaks (get_industry_total_records v))
  /\ (forall v, never_leaks (get_industry_total_pages v))
  /\ (forall n v, never_leaks (get_stocks_by_page_and_industry n v))
  /\ (forall v, never_leaks (get_recent_7_days_data v))
  /\ (forall v, never_leaks (get_latest_technical_indicators v))
  /\ (forall v, never_leaks (get_today_predictions_by_ts_code v))
  /\ never_leaks get_top3_predictions.
Proof.
  assert (Hrec : never_leaks get_total_records) by (unfold get_total_records; leak_free).
  assert (Harea : forall v, never_leaks (get_area_total_records v))
    by (intros v; unfold get_area_total_records; leak_free).
  assert (Hind : forall v, never_leaks (get_industry_total_records v))
    by (intros v; unfold get_industry_total_records; leak_free).
  repeat split; intros;
    unfold get_total_pages, get_stocks_by_page_number, get_stock_by_symbol,
      get_stock_by_name, get_area_total_pages, get_stocks_by_page_and_area,
      get_industry_total_pages, get_stocks_by_page_and_industry,
      get_recent_7_days_data, get_latest_technical_indicators,
      get_today_predictions_by_ts_code, get_top3_predictions;
    cbv zeta;
    repeat first
      [ exact Hrec | apply Harea | apply Hind
      | apply never_leaks_ret
      | apply never_leaks_value_error
      | apply never_leaks_exception
      | apply never_leaks_try_except; intros ?
      | apply never_leaks_bind; [|intros ?]
      | match goal with
        | |- never_leaks (if ?b then _ else _) => destruct b
        end ].
Qed.

(** A server that is down at the first round trip: every method called with
    valid arguments raises its own wrapping [Exception] around the server's
    text, after that one round trip and no other. *)
Theorem first_round_trip_down (w : World) (e : string) (n : Z) (v : string) :
  w 0%nat = Down e -> 1 <= n -> v <> EmptyString ->
  run get_total_records w = (Raise (Exception (total_count_error e)), [stmt Q_stocks_count])
  /\ run get_total_pages w = (Raise (Exception (total_count_error e)), [stmt Q_stocks_count])
  /\ run (get_stocks_by_page_number n true) w
     = (Raise (Exception (total_count_error e)), [stmt Q_stocks_count])
  /\ run (get_stocks_by_page_number n false) w
     = (Raise (Exception (db_query_error e)), [stmt (Q_stocks_page 20 (20 * (n - 1)))])
  /\ run (get_stock_by_symbol v) w
     = (Raise (Exception (query_error e)), [stmt (Q_stock_by_symbol v)])
  /\ run (get_stock_by_name v) w
     = (Raise (Exception (query_error e)), [stmt (Q_stock_by_name v)])
  /\ run (get_stocks_by_page_and_area n v) w
     = (Raise (Exception (query_error e)), [stmt (Q_area_count v)])
  /\ run (get_stocks_by_page_and_industry n v) w
     = (Raise (Exception (query_error e)), [stmt (Q_industry_count v)])
  /\ run (get_recent_7_days_data v) w
     = (Raise (Exception (query_error e)), [stmt (Q_recent_daily v)])
  /\ run (get_latest_technical_indicators v) w
     = (Raise (Exception (query_error e)), [stmt (Q_latest_indicators v)])
  /\ run (get_today_predictions_by_ts_code v) w
     = (Raise (Exception (query_error e)), [stmt (Q_today_predictions v)])
  /\ run get_top3_predictions w = (Raise (Exception (top3_error e)), [stmt Q_top3]).
Proof.
  intros Hw Hn Hv. apply str_nonempty in Hv. apply Z.ltb_ge in Hn.
  repeat split;
    unfold run, get_stocks_by_page_number, get_total_pages, get_total_records,
      get_stock_by_symbol, get_stock_by_name, get_stocks_by_page_and_area,
      get_stocks_by_page_and_industry, get_area_total_records,
      get_industry_total_records, get_recent_7_days_data,
      get_latest_technical_indicators, get_today_predictions_by_ts_code,
      get_top3_predictions, bind, try_except, execute, raise, ret;
    rewrite ?Hn, ?Hv; cbn [List.length]; rewrite ?Hw; reflexivity.
Qed.

Lemma first_round_trip_down_witness :
  run (get_stocks_by_page_number 2 true) (fun _ => Down "gone")
  = (Raise (Exception (total_count_error "gone")), [stmt Q_stocks_count])
  /\ run (get_stocks_by_page_and_area 2 "SZ") (fun _ => Down "gone")
     = (Raise (Exception (query_error "gone")), [stmt (Q_area_count "SZ")]).
Proof.
  pose proof (first_round_trip_down (fun _ => Down "gone"%string) "gone" 2 "SZ"
                eq_refl ltac:(lia) ltac:(discriminate)) as (_ & _ & Hp & _ & _ & _ & Ha & _).
  split; [exact Hp | exact Ha].
Defined.

(** The later round trips of [get_stocks_by_page_number]: a failure of the
    fetch is wrapped as a database query error, and a failure of the count
    that follows an empty fetch keeps the text of [get_total_records], which
    the enclosing [try] does not catch. *)
Theorem later_round_trip_down
  (w : World) (c0 : Z) (db0 : Database) (e : string) (n : Z) :
  w 0%nat = Up c0 db0 -> 1 <= n -> n <= pages_for (count_rows (stocks db0)) ->
  (w 1%nat = Down e ->
   run (get_stocks_by_page_number n true) w
   = (Raise (Exception (db_query_error e)),
      [stmt (Q_stocks_page 20 (20 * (n - 1))); stmt Q_stocks_count]))
  /\ (forall (c1 : Z) (db1 : Database),
         w 1%nat = Up c1 db1 -> w 2%nat = Down e ->
         1 < n -> count_rows (stocks db1) <= 20 * (n - 1) ->
         run (get_stocks_by_page_number n true) w
         = (Raise (Exception (total_count_error e)),
            [stmt Q_stocks_count; stmt (Q_stocks_page 20 (20 * (n - 1))); stmt Q_stocks_count])).
Proof.
  intros Hw0 Hn Hle. split.
  - intros Hw1.
    unfold run, get_stocks_by_page_number, bind, try_except, ret.
    replace (n <? 1) with false by (symmetry; apply Z.ltb_ge; lia).
    rewrite (get_total_pages_up w [] c0 db0 Hw0).
    replace (n >? _) with false by (symmetry; rewrite Z.gtb_ltb; apply Z.ltb_ge; lia).
    unfold execute. cbn [List.length]. rewrite Hw1. reflexivity.
  - intros c1 db1 Hw1 Hw2 Hn1 Hc.
    unfold run, get_stocks_by_page_number, bind, try_except, ret.
    replace (n <? 1) with false by (symmetry; apply Z.ltb_ge; lia).
    rewrite (get_total_pages_up w [] c0 db0 Hw0).
    replace (n >? _) with false by (symmetry; rewrite Z.gtb_ltb; apply Z.ltb_ge; lia).
    rewrite (fetch_page_up w [stmt Q_stocks_count] c1 db1 n Hn Hw1).
    rewrite limit_offset_past_end by (rewrite ?count_order_by; lia).
    replace (n >? 1) with true by (symmetry; apply Z.gtb_lt; lia).
    cbn [no_rows andb].
    unfold get_total_records, try_except, execute, raise. cbn [List.length].
    rewrite Hw2. reflexivity.
Qed.

Lemma later_round_trip_down_witness :
  run (get_stocks_by_page_number 3 true)
    (fun k => match k with O => Up 0 db45 | _ => Down "gone" end)
  = (Raise (Exception (db_query_error "gone")),
     [stmt (Q_stocks_page 20 (20 * (3 - 1))); stmt Q_stocks_count])
  /\ run (get_stocks_by_page_number 3 true)
       (fun k => match k with O => Up 0 db45 | 1%nat => Up 0 db40 | _ => Down "gone" end)
     = (Raise (Exception (total_count_error "gone")),
        [stmt Q_stocks_count; stmt (Q_stocks_page 20 (20 * (3 - 1))); stmt Q_stocks_count]).
Proof.
  split.
  - apply (proj1 (later_round_trip_down
                    (fun k => match k with O => Up 0 db45 | _ => Down "gone"%string end)
                    0 db45 "gone" 3 eq_refl ltac:(lia) ltac:(vm_compute; discriminate))).
    reflexivity.
  - apply (proj2 (later_round_trip_down
                    (fun k => match k with
                              | O => Up 0 db45 | 1%nat => Up 0 db40 | _ => Down "gone"%string
                              end)
                    0 db45 "gone" 3 eq_refl ltac:(lia) ltac:(vm_compute; discriminate))
             0 db40);
      [reflexivity | reflexivity | lia | vm_compute; discriminate].
Defined.

(** ** Point lookups and single-table reads *)

Lemma order_by_permutation {A : Type} (key : A -> Z) (l : list A) :
  Permutation (order_by key l) l.
Proof.
  induction l as [|x l IH]; simpl; [constructor|].
  transitivity (x :: order_by key l); [|now constructor].
  generalize (order_by key l). clear. intros l.
  induction l as [|y l IH]; simpl; [reflexivity|].
  destruct (key x <=? key y); [reflexivity|].
  rewrite IH. apply perm_swap.
Qed.

(** With the server up, [get_stock_by_symbol] and [get_stock_by_name] return
    a row only if it is in the table and carries the value asked for, and
    return [None] exactly when no row carries it. *)
Theorem point_lookup_finds
  (w : World) (curdate : Z) (db : Database) (v : string) :
  v <> EmptyString -> w 0%nat = Up curdate db ->
  (exists result,
      fst (run (get_stock_by_symbol v) w) = Return result
      /\ (forall r, result = Some r -> In r (stocks db) /\ StockRecord.symbol r = v)
      /\ (result = None <-> forall r, In r (stocks db) -> StockRecord.symbol r <> v))
  /\ (exists result,
         fst (run (get_stock_by_name v) w) = Return result
         /\ (forall r, result = Some r -> In r (stocks db) /\ StockRecord.name r = v)
         /\ (result = None <-> forall r, In r (stocks db) -> StockRecord.name r <> v)).
Proof.
  intros Hv Hw. apply str_nonempty in Hv. split.
  - exists (find (fun r => String.eqb (StockRecord.symbol r) v) (stocks db)).
    split; [|split].
    + unfold run, get_stock_by_symbol, try_except. rewrite Hv.
      now rewrite (execute_up w [] curdate db Hw (Q_stock_by_symbol v) _ eq_refl).
    + intros r Hr. apply find_some in Hr. destruct Hr as [Hin Heq].
      split; [exact Hin | now apply String.eqb_eq].
    + split.
      * intros Hnone r Hr. apply String.eqb_neq.
        exact (find_none _ _ Hnone r Hr).
      * intros Hall. apply find_no_match. intros r Hr.
        apply String.eqb_neq. now apply Hall.
  - exists (find (fun r => String.eqb (StockRecord.name r) v) (stocks db)).
    split; [|split].
    + unfold run, get_stock_by_name, try_except. rewrite Hv.
      now rewrite (execute_up w [] curdate db Hw (Q_stock_by_name v) _ eq_refl).
    + intros r Hr. apply find_some in Hr. destruct Hr as [Hin Heq].
      split; [exact Hin | now apply String.eqb_eq].
    + split.
      * intros Hnone r Hr. apply String.eqb_neq.
        exact (find_none _ _ Hnone r Hr).
      * intros Hall. apply find_no_match. intros r Hr.
        apply String.eqb_neq. now apply Hall.
Qed.

Lemma point_lookup_finds_witness :
  exists result,
    fst (run (get_stock_by_symbol "s") (steady 0 db45)) = Return result
    /\ (forall r, result = Some r -> In r (stocks db45) /\ StockRecord.symbol r = "s"%string)
    /\ (result = None <-> forall r, In r (stocks db45) -> StockRecord.symbol r <> "s"%string).
Proof.
  apply (proj1 (point_lookup_finds (steady 0 db45) 0 db45 "s"
                  ltac:(discriminate) eq_refl)).
Defined.

(** With the server up, [get_latest_technical_indicators] returns a row of
    the given ticker whose id no other row of that ticker exceeds, and [None]
    exactly when the ticker has no row. *)
Theorem latest_indicators_is_highest_id
  (w : World) (curdate : Z) (db : Database) (v : string) :
  v <> EmptyString -> w 0%nat = Up curdate db ->
  exists result,
    run (get_latest_technical_indicators v) w
    = (Return result, [stmt (Q_latest_indicators v)])
    /\ (forall r, result = Some r ->
                  In r (stock_technical_indicators_clean db)
                  /\ TechnicalIndicatorSnapshot.ts_code r = v
                  /\ forall r', In r' (stock_technical_indicators_clean db) ->
                                TechnicalIndicatorSnapshot.ts_code r' = v ->
                                TechnicalIndicatorSnapshot.id r' <= TechnicalIndicatorSnapshot.id r)
    /\ (result = None <->
        forall r, In r (stock_technical_indicators_clean db) ->
                  TechnicalIndicatorSnapshot.ts_code r <> v).
Proof.
  intros Hv Hw. apply str_nonempty in Hv.
  set (same := fun r => String.eqb (TechnicalIndicatorSnapshot.ts_code r) v).
  set (matching := filter same (stock_technical_indicators_clean db)).
  exists (hd_error (order_by_desc TechnicalIndicatorSnapshot.id matching)).
  split; [|split].
  - unfold run, get_latest_technical_indicators, try_except. rewrite Hv.
    now rewrite (execute_up w [] curdate db Hw (Q_latest_indicators v) _ eq_refl).
  - intros r Hr.
    pose proof (order_by_desc_sorted TechnicalIndicatorSnapshot.id matching) as Hs.
    assert (Hmem : forall z, In z (order_by_desc TechnicalIndicatorSnapshot.id matching)
                             <-> In z matching) by (intros z; apply In_order_by).
    destruct (order_by_desc TechnicalIndicatorSnapshot.id matching) as [|x l];
      [discriminate|].
    injection Hr as ->.
    assert (Hin : In r matching) by (apply Hmem; now left).
    apply filter_In in Hin. destruct Hin as [Hin Hsame].
    split; [exact Hin|]. split; [now apply String.eqb_eq|].
    intros r' Hin' Hcode'.
    assert (Hr' : In r' (r :: l)).
    { apply Hmem. apply filter_In. split; [exact Hin'|]. now apply String.eqb_eq. }
    destruct Hr' as [<-|Hr']; [lia|].
    inversion Hs as [|? ? _ Hall]; subst.
    rewrite Forall_forall in Hall. specialize (Hall r' Hr'). lia.
  - pose proof (length_order_by (fun r => - TechnicalIndicatorSnapshot.id r) matching) as Hlen.
    fold (order_by_desc TechnicalIndicatorSnapshot.id matching) in Hlen.
    split.
    + intros Hnone r Hin Hcode.
      destruct (order_by_desc TechnicalIndicatorSnapshot.id matching); [|discriminate].
      assert (Hm : In r matching).
      { apply filter_In. split; [exact Hin|]. now apply String.eqb_eq. }
      destruct matching; [destruct Hm | discriminate].
    + intros Hall.
      assert (Hm : matching = []).
      { destruct matching as [|x l] eqn:E; [reflexivity|].
        assert (Hx : In x matching) by (rewrite E; now left).
        apply filter_In in Hx. destruct Hx as [Hin Hsame].
        apply String.eqb_eq in Hsame. now destruct (Hall x Hin). }
      rewrite Hm. reflexivity.
Qed.

Lemma latest_indicators_is_highest_id_witness :
  exists result,
    run (get_latest_technical_indicators "000001.SZ") (steady 20000 sample_signals)
    = (Return result, [stmt (Q_latest_indicators "000001.SZ")])
    /\ (forall r, result = Some r ->
                  In r (stock_technical_indicators_clean sample_signals)
                  /\ TechnicalIndicatorSnapshot.ts_code r = "000001.SZ"%string
                  /\ forall r', In r' (stock_technical_indicators_clean sample_signals) ->
                                TechnicalIndicatorSnapshot.ts_code r' = "000001.SZ"%string ->
                                TechnicalIndicatorSnapshot.id r' <= TechnicalIndicatorSnapshot.id r)
    /\ (result = None <->
        forall r, In r (stock_technical_indicators_clean sample_signals) ->
                  TechnicalIndicatorSnapshot.ts_code r <> "000001.SZ"%string).
Proof.
  apply (latest_indicators_is_highest_id (steady 20000 sample_signals) 20000 sample_signals
           "000001.SZ"); [discriminate | reflexivity].
Defined.

(** With the server up, [get_today_predictions_by_ts_code] returns, without
    any limit, a rearrangement of exactly the predictions of the given ticker
    whose [predict_date] is the server's current date, in descending order of
    id. *)
Theorem today_predictions_are_todays
  (w : World) (curdate : Z) (db : Database) (v : string) :
  v <> EmptyString -> w 0%nat = Up curdate db ->
  exists rows,
    run (get_today_predictions_by_ts_code v) w
    = (Return rows, [stmt (Q_today_predictions v)])
    /\ Permutation rows
         (filter (fun r => String.eqb (PredictionRecord.ts_code r) v
                           && (PredictionRecord.predict_date r =? curdate))
                 (ai_predictions db))
    /\ (forall r, In r rows <->
                  In r (ai_predictions db)
                  /\ PredictionRecord.ts_code r = v
                  /\ PredictionRecord.predict_date r = curdate)
    /\ StronglySorted (fun a b => PredictionRecord.id a >= PredictionRecord.id b) rows.
Proof.
  intros Hv Hw. apply str_nonempty in Hv.
  set (todays := fun r => String.eqb (PredictionRecord.ts_code r) v
                          && (PredictionRecord.predict_date r =? curdate)).
  exists (order_by_desc PredictionRecord.id (filter todays (ai_predictions db))).
  split; [|split; [|split]].
  - unfold run, get_today_predictions_by_ts_code, try_except. rewrite Hv.
    now rewrite (execute_up w [] curdate db Hw (Q_today_predictions v) _ eq_refl).
  - apply order_by_permutation.
  - intros r. unfold order_by_desc. rewrite In_order_by, filter_In. unfold todays.
    rewrite andb_true_iff, String.eqb_eq, Z.eqb_eq. tauto.
  - apply order_by_desc_sorted.
Qed.

Lemma today_predictions_are_todays_witness :
  exists rows,
    run (get_today_predictions_by_ts_code "000001.SZ") (steady 20000 sample_signals)
    = (Return rows, [stmt (Q_today_predictions "000001.SZ")])
    /\ Permutation rows
         (filter (fun r => String.eqb (PredictionRecord.ts_code r) "000001.SZ"
                           && (PredictionRecord.predict_date r =? 20000))
                 (ai_predictions sample_signals))
    /\ (forall r, In r rows <->
                  In r (ai_predictions sample_signals)
                  /\ PredictionRecord.ts_code r = "000001.SZ"%string
                  /\ PredictionRecord.predict_date r = 20000)
    /\ StronglySorted (fun a b => PredictionRecord.id a >= PredictionRecord.id b) rows.
Proof.
  apply (today_predictions_are_todays (steady 20000 sample_signals) 20000 sample_signals
           "000001.SZ"); [discriminate | reflexivity].
Defined.

(** With the server up, [get_top3_predictions] returns the whole of
    [ai_predictions_top3] in ascending order of id: as many rows as the table
    holds, three or not. *)
Theorem top3_is_the_whole_table (w : World) (curdate : Z) (db : Database) :
  w 0%nat = Up curdate db ->
  exists rows,
    run get_top3_predictions w = (Return rows, [stmt Q_top3])
    /\ Permutation rows (ai_predictions_top3 db)
    /\ List.length rows = List.length (ai_predictions_top3 db)
    /\ StronglySorted (fun a b => PredictionRecord.id a <= PredictionRecord.id b) rows.
Proof.
  intros Hw. exists (order_by PredictionRecord.id (ai_predictions_top3 db)).
  split; [|split; [|split]].
  - unfold run, get_top3_predictions, try_except.
    now rewrite (execute_up w [] curdate db Hw Q_top3 _ eq_refl).
  - apply order_by_permutation.
  - apply length_order_by.
  - apply (order_by_sorted PredictionRecord.id).
Qed.

Lemma top3_is_the_whole_table_witness :
  exists rows,
    run get_top3_predictions (steady 20000 sample_signals) = (Return rows, [stmt Q_top3])
    /\ Permutation rows (ai_predictions_top3 sample_signals)
    /\ List.length rows = List.length (ai_predictions_top3 sample_signals)
    /\ StronglySorted (fun a b => PredictionRecord.id a <= PredictionRecord.id b) rows.
Proof.
  apply (top3_is_the_whole_table (steady 20000 sample_signals) 20000 sample_signals).
  reflexivity.
Defined.

(** The sample tables: the latest snapshot of a ticker, its predictions of
    the day, and a top-N table of five rows returned in full. *)
Example sample_signals_reads :
  (exists r, fst (run (get_latest_technical_indicators "000001.SZ")
                    (steady 20000 sample_signals)) = Return (Some r)
             /\ TechnicalIndicatorSnapshot.id r = 3)
  /\ (exists rows, fst (run (get_today_predictions_by_ts_code "000001.SZ")
                          (steady 20000 sample_signals)) = Return rows
                   /\ map PredictionRecord.id rows = [4; 2])
  /\ (exists rows, fst (run get_top3_predictions (steady 20000 sample_signals)) = Return rows
                   /\ map PredictionRecord.id rows = [1; 2; 3; 4; 5]).
Proof.
  split; [|split]; eexists; split; reflexivity.
Qed.

(** ** Pages as a partition *)

Lemma chunks_concat {A : Type} (p : nat) (l : list A) :
  (List.length l <= 20 * p)%nat ->
  List.concat (map (fun k => firstn 20 (skipn (20 * k) l)) (seq 0 p)) = l.
Proof.
  revert l. induction p as [|p IH]; intros l Hlen.
  - destruct l; [reflexivity | simpl in Hlen; lia].
  - rewrite <- cons_seq, <- seq_shift. cbn [map List.concat]. rewrite map_map.
    replace (20 * 0)%nat with 0%nat by lia. cbn [skipn].
    rewrite <- (firstn_skipn 20 l) at 2. f_equal.
    rewrite <- (IH (skipn 20 l)) by (rewrite length_skipn; lia).
    f_equal. apply map_ext. intros k.
    rewrite skipn_skipn. do 2 f_equal. lia.
Qed.

Lemma Forall2_map_right {A B : Type} (P : A -> B -> Prop) (f : A -> B) (l : list A) :
  (forall a, In a l -> P a (f a)) -> Forall2 P l (map f l).
Proof.
  induction l as [|a l IH]; intros Hall; simpl; constructor.
  - apply Hall. now left.
  - apply IH. intros b Hb. apply Hall. now right.
Qed.

Lemma pages_concat {A : Type} (l : list A) :
  List.concat (map (fun k => limit_offset 20 (20 * (Z.of_nat k - 1)) l)
            (seq 1 (Z.to_nat (pages_for (count_rows l)))))
  = l.
Proof.
  pose proof (pages_for_bounds _ (count_rows_nonneg l)) as Hb.
  rewrite <- seq_shift, map_map.
  rewrite <- (chunks_concat (Z.to_nat (pages_for (count_rows l))) l) at 2
    by (unfold count_rows in *; lia).
  f_equal. apply map_ext. intros k. unfold limit_offset.
  change (Z.to_nat 20) with 20%nat. do 2 f_equal. lia.
Qed.

Lemma page_steady (curdate : Z) (db : Database) (n : Z) :
  1 <= n -> n <= pages_for (count_rows (stocks db)) ->
  fst (run (get_stocks_by_page_number n true) (steady curdate db))
  = Return (limit_offset 20 (20 * (n - 1)) (order_by StockRecord.id (stocks db))).
Proof.
  intros Hn Hle.
  pose proof (pages_for_bounds _ (count_rows_nonneg (stocks db))) as Hb.
  unfold run, get_stocks_by_page_number, bind, try_except, ret.
  replace (n <? 1) with false by (symmetry; apply Z.ltb_ge; lia).
  rewrite (get_total_pages_up (steady curdate db) [] curdate db eq_refl).
  replace (n >? _) with false by (symmetry; rewrite Z.gtb_ltb; apply Z.ltb_ge; lia).
  rewrite (fetch_page_up (steady curdate db) _ curdate db n Hn eq_refl).
  rewrite limit_offset_inside; [reflexivity | lia | lia |].
  rewrite count_order_by. lia.
Qed.

Lemma last_page_limit {A : Type} (n : Z) (l : list A) :
  1 <= n -> n <= pages_for (count_rows l) ->
  limit_offset (if n <? pages_for (count_rows l) then 20 else count_rows l - 20 * (n - 1))
    (20 * (n - 1)) l
  = limit_offset 20 (20 * (n - 1)) l.
Proof.
  intros Hn Hle.
  pose proof (pages_for_bounds _ (count_rows_nonneg l)) as Hb.
  destruct (Z.ltb_spec n (pages_for (count_rows l))) as [Hlt|Hge]; [reflexivity|].
  unfold limit_offset, count_rows in *.
  rewrite !firstn_all2; [reflexivity | |]; rewrite length_skipn; lia.
Qed.

Lemma area_page_steady (curdate : Z) (db : Database) (n : Z) (v : string) :
  v <> EmptyString -> 1 <= n ->
  n <= pages_for (count_rows (filter (area_is v) (stocks db))) ->
  fst (run (get_stocks_by_page_and_area n v) (steady curdate db))
  = Return (limit_offset 20 (20 * (n - 1))
              (order_by StockRecord.id (filter (area_is v) (stocks db)))).
Proof.
  intros Hv Hn Hle. apply str_nonempty in Hv.
  pose proof (pages_for_bounds _ (count_rows_nonneg (filter (area_is v) (stocks db)))) as Hb.
  assert (Hc : 0 < count_rows (filter (area_is v) (stocks db))) by lia.
  pose proof (exact_limit _ n Hc Hn Hle) as [Hlim _].
  unfold run, get_stocks_by_page_and_area, bind, try_except.
  replace (n <? 1) with false by (symmetry; apply Z.ltb_ge; lia).
  rewrite Hv.
  rewrite (get_area_total_records_up (steady curdate db) [] curdate db eq_refl).
  replace (_ =? 0) with false by (symmetry; apply Z.eqb_neq; lia).
  rewrite (get_area_total_pages_up (steady curdate db) _ curdate db eq_refl).
  replace (n >? _) with false by (symmetry; rewrite Z.gtb_ltb; apply Z.ltb_ge; lia).
  rewrite (fetch_area_page_up (steady curdate db) _ curdate db v _ _ eq_refl) by lia.
  cbn [fst]. f_equal.
  rewrite <- (count_order_by StockRecord.id (filter (area_is v) (stocks db))).
  apply last_page_limit; [lia | now rewrite count_order_by].
Qed.

Lemma industry_page_steady (curdate : Z) (db : Database) (n : Z) (v : string) :
  v <> EmptyString -> 1 <= n ->
  n <= pages_for (count_rows (filter (industry_is v) (stocks db))) ->
  fst (run (get_stocks_by_page_and_industry n v) (steady curdate db))
  = Return (limit_offset 20 (20 * (n - 1))
              (order_by StockRecord.id (filter (industry_is v) (stocks db)))).
Proof.
  intros Hv Hn Hle. apply str_nonempty in Hv.
  pose proof (pages_for_bounds _ (count_rows_nonneg (filter (industry_is v) (stocks db))))
    as Hb.
  assert (Hc : 0 < count_rows (filter (industry_is v) (stocks db))) by lia.
  pose proof (exact_limit _ n Hc Hn Hle) as [Hlim _].
  unfold run, get_stocks_by_page_and_industry, bind, try_except.
  replace (n <? 1) with false by (symmetry; apply Z.ltb_ge; lia).
  rewrite Hv.
  rewrite (get_industry_total_records_up (steady curdate db) [] curdate db eq_refl).
  replace (_ =? 0) with false by (symmetry; apply Z.eqb_neq; lia).
  rewrite (get_industry_total_pages_up (steady curdate db) _ curdate db eq_refl).
  replace (n >? _) with false by (symmetry; rewrite Z.gtb_ltb; apply Z.ltb_ge; lia).
  rewrite (fetch_industry_page_up (steady curdate db) _ curdate db v _ _ eq_refl) by lia.
  cbn [fst]. f_equal.
  rewrite <- (count_order_by StockRecord.id (filter (industry_is v) (stocks db))).
  apply last_page_limit; [lia | now rewrite count_order_by].
Qed.

(** On an unchanged dataset the pages 1, 2, ..., [total_pages] of the
    unfiltered list, one after the other, are the whole table in ascending
    order of id: no row is skipped and none comes twice. *)
Theorem pages_partition_the_table (curdate : Z) (db : Database) :
  exists pages : list (list StockRecord.t),
    Forall2
      (fun k rows =>
         fst (run (get_stocks_by_page_number (Z.of_nat k) true) (steady curdate db))
         = Return rows)
      (seq 1 (Z.to_nat (pages_for (count_rows (stocks db))))) pages
    /\ List.concat pages = order_by StockRecord.id (stocks db).
Proof.
  set (sorted := order_by StockRecord.id (stocks db)).
  exists (map (fun k => limit_offset 20 (20 * (Z.of_nat k - 1)) sorted)
            (seq 1 (Z.to_nat (pages_for (count_rows (stocks db)))))).
  split.
  - apply Forall2_map_right. intros k Hk. apply in_seq in Hk.
    apply page_steady; lia.
  - rewrite <- (count_order_by StockRecord.id (stocks db)). apply pages_concat.
Qed.

(** On an unchanged dataset the pages 1, 2, ..., [total_pages] of an area,
    and of an industry, one after the other, are exactly the rows of that
    area, or industry, in ascending order of id. *)
Theorem filtered_pages_partition_the_matches (curdate : Z) (db : Database) (v : string) :
  v <> EmptyString ->
  (exists pages : list (list StockRecord.t),
      Forall2
        (fun k rows =>
           fst (run (get_stocks_by_page_and_area (Z.of_nat k) v) (steady curdate db))
           = Return rows)
        (seq 1 (Z.to_nat (pages_for (count_rows (filter (area_is v) (stocks db)))))) pages
      /\ List.concat pages = order_by StockRecord.id (filter (area_is v) (stocks db)))
  /\ (exists pages : list (list StockRecord.t),
         Forall2
           (fun k rows =>
              fst (run (get_stocks_by_page_and_industry (Z.of_nat k) v) (steady curdate db))
              = Return rows)
           (seq 1 (Z.to_nat (pages_for (count_rows (filter (industry_is v) (stocks db))))))
           pages
         /\ List.concat pages = order_by StockRecord.id (filter (industry_is v) (stocks db))).
Proof.
  intros Hv. split.
  - set (sorted := order_by StockRecord.id (filter (area_is v) (stocks db))).
    exists (map (fun k => limit_offset 20 (20 * (Z.of_nat k - 1)) sorted)
              (seq 1 (Z.to_nat (pages_for (count_rows (filter (area_is v) (stocks db))))))).
    split.
    + apply Forall2_map_right. intros k Hk. apply in_seq in Hk.
      apply area_page_steady; [exact Hv | lia | lia].
    + rewrite <- (count_order_by StockRecord.id (filter (area_is v) (stocks db))).
      apply pages_concat.
  - set (sorted := order_by StockRecord.id (filter (industry_is v) (stocks db))).
    exists (map (fun k => limit_offset 20 (20 * (Z.of_nat k - 1)) sorted)
              (seq 1 (Z.to_nat (pages_for (count_rows (filter (industry_is v) (stocks db))))))).
    split.
    + apply Forall2_map_right. intros k Hk. apply in_seq in Hk.
      apply industry_page_steady; [exact Hv | lia | lia].
    + rewrite <- (count_order_by StockRecord.id (filter (industry_is v) (stocks db))).
      apply pages_concat.
Qed.

Lemma filtered_pages_partition_the_matches_witness :
  exists pages : list (list StockRecord.t),
    Forall2
      (fun k rows =>
         fst (run (get_stocks_by_page_and_area (Z.of_nat k) "SZ") (steady 0 db45))
         = Return rows)
      (seq 1 (Z.to_nat (pages_for (count_rows (filter (area_is "SZ") (stocks db45)))))) pages
    /\ List.concat pages = order_by StockRecord.id (filter (area_is "SZ") (stocks db45)).
Proof.
  apply (proj1 (filtered_pages_partition_the_matches 0 db45 "SZ" ltac:(discriminate))).
Defined.

(** ** Counts that disagree *)

Lemma wrapped_execute_logs {R : Type} (q : Query R) (wrap : string -> ExceptionMsg)
  (w : World) (log : list Statement) :
  snd (try_except (execute q) (fun e => raise (Exception (wrap e))) w log) = stmt q :: log.
Proof.
  unfold try_except, execute, raise.
  destruct (w (List.length log)) as [curdate db|e]; [|reflexivity].
  now destruct (answer q curdate db).
Qed.

(** The filtered fetches count twice, and the two counts need not agree.  The
    bound check uses the page count of the second count; the limit of the last
    page uses the first count.  So when rows were added in between, the limit
    sent for the last page is the first count minus the offset, which is below
    the rows that page now has and can be negative. *)
Theorem filtered_fetch_mixes_two_counts
  (w : World) (c0 c1 : Z) (db0 db1 : Database) (n : Z) (v : string) :
  v <> EmptyString -> 1 <= n -> w 0%nat = Up c0 db0 -> w 1%nat = Up c1 db1 ->
  (count_rows (filter (area_is v) (stocks db0)) <> 0 ->
   n <= pages_for (count_rows (filter (area_is v) (stocks db1))) ->
   hd_error (snd (run (get_stocks_by_page_and_area n v) w))
   = Some (stmt (Q_area_page v
                   (if n <? pages_for (count_rows (filter (area_is v) (stocks db1)))
                    then 20
                    else count_rows (filter (area_is v) (stocks db0)) - 20 * (n - 1))
                   (20 * (n - 1)))))
  /\ (count_rows (filter (industry_is v) (stocks db0)) <> 0 ->
      n <= pages_for (count_rows (filter (industry_is v) (stocks db1))) ->
      hd_error (snd (run (get_stocks_by_page_and_industry n v) w))
      = Some (stmt (Q_industry_page v
                      (if n <? pages_for (count_rows (filter (industry_is v) (stocks db1)))
                       then 20
                       else count_rows (filter (industry_is v) (stocks db0)) - 20 * (n - 1))
                      (20 * (n - 1))))).
Proof.
  intros Hv Hn Hw0 Hw1. apply str_nonempty in Hv. split; intros Hc Hle.
  - unfold run, get_stocks_by_page_and_area, bind.
    replace (n <? 1) with false by (symmetry; apply Z.ltb_ge; lia).
    rewrite Hv.
    rewrite (get_area_total_records_up w [] c0 db0 Hw0).
    replace (_ =? 0) with false by (symmetry; apply Z.eqb_neq; lia).
    rewrite (get_area_total_pages_up w [stmt (Q_area_count v)] c1 db1 Hw1).
    replace (n >? _) with false by (symmetry; rewrite Z.gtb_ltb; apply Z.ltb_ge; lia).
    cbv zeta. now rewrite wrapped_execute_logs.
  - unfold run, get_stocks_by_page_and_industry, bind.
    replace (n <? 1) with false by (symmetry; apply Z.ltb_ge; lia).
    rewrite Hv.
    rewrite (get_industry_total_records_up w [] c0 db0 Hw0).
    replace (_ =? 0) with false by (symmetry; apply Z.eqb_neq; lia).
    rewrite (get_industry_total_pages_up w [stmt (Q_industry_count v)] c1 db1 Hw1).
    replace (n >? _) with false by (symmetry; rewrite Z.gtb_ltb; apply Z.ltb_ge; lia).
    cbv zeta. now rewrite wrapped_execute_logs.
Qed.

Lemma filtered_fetch_mixes_two_counts_witness :
  hd_error (snd (run (get_stocks_by_page_and_area 3 "SZ")
                   (fun k => match k with
                             | O => Up 0 (stocks_only (sample_stocks 5 "SZ" "bank"))
                             | _ => Up 0 db45
                             end)))
  = Some (stmt (Q_area_page "SZ"
                  (if 3 <? pages_for (count_rows (filter (area_is "SZ") (stocks db45)))
                   then 20
                   else count_rows (filter (area_is "SZ")
                                      (stocks (stocks_only (sample_stocks 5 "SZ" "bank"))))
                        - 20 * (3 - 1))
                  (20 * (3 - 1)))).
Proof.
  apply (proj1 (filtered_fetch_mixes_two_counts
                  (fun k => match k with
                            | O => Up 0 (stocks_only (sample_stocks 5 "SZ" "bank"))
                            | _ => Up 0 db45
                            end)
                  0 0 (stocks_only (sample_stocks 5 "SZ" "bank")) db45 3 "SZ"
                  ltac:(discriminate) ltac:(lia) eq_refl eq_refl));
    [vm_compute; discriminate | vm_compute; discriminate].
Defined.

(** Five rows at the first count, 45 at the second: page 3 is asked for with
    a limit of -35. *)
Example growing_filter_negative_limit :
  hd_error (snd (run (get_stocks_by_page_and_area 3 "SZ")
                   (fun k => match k with
                             | O => Up 0 (stocks_only (sample_stocks 5 "SZ" "bank"))
                             | _ => Up 0 db45
                             end)))
  = Some (stmt (Q_area_page "SZ" (-35) 40)).
Proof. reflexivity. Qed.

(** ** More on the unfiltered list and the recent bars *)

(** With [check_total] false and the server up, every [n >= 1] gets the slice
    of the id-ordered table at offset [20 * (n - 1)], of
    [min 20 (max 0 (total - offset))] rows, for one statement sent and no
    count. *)
Theorem unchecked_page_is_a_slice (w : World) (curdate : Z) (db : Database) (n : Z) :
  1 <= n -> w 0%nat = Up curdate db ->
  exists rows,
    run (get_stocks_by_page_number n false) w
    = (Return rows, [stmt (Q_stocks_page 20 (20 * (n - 1)))])
    /\ rows = firstn 20 (skipn (Z.to_nat (20 * (n - 1)))
                           (order_by StockRecord.id (stocks db)))
    /\ count_rows rows = Z.min 20 (Z.max 0 (count_rows (stocks db) - 20 * (n - 1))).
Proof.
  intros Hn Hw.
  exists (limit_offset 20 (20 * (n - 1)) (order_by StockRecord.id (stocks db))).
  split; [|split].
  - unfold run, get_stocks_by_page_number, bind, try_except, ret.
    replace (n <? 1) with false by (symmetry; apply Z.ltb_ge; lia).
    rewrite (fetch_page_up w [] curdate db n Hn Hw).
    now rewrite andb_false_r.
  - reflexivity.
  - rewrite count_limit_offset, count_order_by by lia. reflexivity.
Qed.

Lemma unchecked_page_is_a_slice_witness :
  exists rows,
    run (get_stocks_by_page_number 3 false) (steady 0 db45)
    = (Return rows, [stmt (Q_stocks_page 20 (20 * (3 - 1)))])
    /\ rows = firstn 20 (skipn (Z.to_nat (20 * (3 - 1)))
                           (order_by StockRecord.id (stocks db45)))
    /\ count_rows rows = Z.min 20 (Z.max 0 (count_rows (stocks db45) - 20 * (3 - 1))).
Proof.
  apply (unchecked_page_is_a_slice (steady 0 db45) 0 db45 3); [lia | reflexivity].
Defined.

Lemma sorted_app_between {A : Type} (R : A -> A -> Prop) (a b : list A) :
  StronglySorted R (a ++ b) -> forall x y, In x a -> In y b -> R x y.
Proof.
  induction a as [|z a IH]; intros Hs x y Hx Hy; [destruct Hx|].
  simpl in Hs. inversion Hs as [|? ? Hs' Hall]; subst.
  destruct Hx as [->|Hx].
  - rewrite Forall_forall in Hall. apply Hall. apply in_or_app. now right.
  - now apply IH.
Qed.

(** The rows of [get_recent_7_days_data] are the latest ones: a bar of the
    ticker that passes the date and weekday conditions and is not returned is
    no later than any bar that is. *)
Theorem recent_rows_are_the_latest
  (w : World) (curdate : Z) (db : Database) (v : string) :
  v <> EmptyString -> w 0%nat = Up curdate db ->
  exists rows,
    fst (run (get_recent_7_days_data v) w) = Return rows
    /\ forall r r',
        In r rows -> In r' (stock_daily_data db) ->
        recent_weekday_bar curdate v r' = true -> ~ In r' rows ->
        DailyBar.trade_date r' <= DailyBar.trade_date r.
Proof.
  intros Hv Hw. apply str_nonempty in Hv.
  set (sorted := order_by_desc DailyBar.trade_date
                   (filter (recent_weekday_bar curdate v) (stock_daily_data db))).
  exists (firstn 7 sorted). split.
  - unfold run, get_recent_7_days_data, try_except. rewrite Hv.
    now rewrite (execute_up w [] curdate db Hw (Q_recent_daily v) _ eq_refl).
  - intros r r' Hr Hin Hpass Hout.
    assert (Hr' : In r' sorted).
    { apply In_order_by. apply filter_In. now split. }
    rewrite <- (firstn_skipn 7 sorted) in Hr'. apply in_app_or in Hr'.
    destruct Hr' as [Hr'|Hr']; [contradiction|].
    pose proof (order_by_desc_sorted DailyBar.trade_date
                  (filter (recent_weekday_bar curdate v) (stock_daily_data db))) as Hs.
    fold sorted in Hs. rewrite <- (firstn_skipn 7 sorted) in Hs.
    pose proof (sorted_app_between _ _ _ Hs r r' Hr Hr') as Hge. cbv beta in Hge. lia.
Qed.

Lemma recent_rows_are_the_latest_witness :
  exists rows,
    fst (run (get_recent_7_days_data "000001.SZ") (steady 20000 ten_days_of_bars))
    = Return rows
    /\ forall r r',
        In r rows -> In r' (stock_daily_data ten_days_of_bars) ->
        recent_weekday_bar 20000 "000001.SZ" r' = true -> ~ In r' rows ->
        DailyBar.trade_date r' <= DailyBar.trade_date r.
Proof.
  apply (recent_rows_are_the_latest (steady 20000 ten_days_of_bars) 20000 ten_days_of_bars
           "000001.SZ"); [discriminate | reflexivity].
Defined.

(** ** Routes *)

Lemma check_db_connection_connected {A : Type} (k : H A) (w : World) (log : list Statement) :
  hbind (main.check_db_connection true) (fun _ => k) w log = k w log.
Proof. reflexivity. Qed.

Lemma guarded_status {A : Type} (body : H A) (w : World) (log : list Statement) :
  answers_200_400_500
    (fst (try_except_ValueError_Exception body
            (fun e => hraise (HTTPException 400 (value_error_text e)))
            (fun e => hraise (HTTPException 500 (query_failed e))) w log)).
Proof.
  unfold try_except_ValueError_Exception, answers_200_400_500, hraise.
  destruct (body w log) as [[a|[[msg|e|msg]|code detail]] log']; simpl; auto.
Qed.

Lemma guarded_any_status {A : Type} (body : H A) (w : World) (log : list Statement) :
  answers_200_400_500
    (fst (try_except_Exception body
            (fun e => hraise (HTTPException 500 (query_failed e))) w log)).
Proof.
  unfold try_except_Exception, answers_200_400_500, hraise.
  destruct (body w log) as [[a|x] log']; simpl; auto.
Qed.

(** Whatever the connection state, the arguments and the server, every route
    ends in a body or in an [HTTPException] with code 400 or 500: no other
    exception leaves a route, and no route ends with the code 404, although
    six of them raise it. *)
Theorem routes_answer_200_400_500 (stock_query : bool) (w : World) (n : Z) (v : string) :
  answers_200_400_500 (fst (serve (main.get_stocks_by_page stock_query n) w))
  /\ answers_200_400_500 (fst (serve (main.get_stock_by_symbol stock_query v) w))
  /\ answers_200_400_500 (fst (serve (main.get_stock_by_name stock_query v) w))
  /\ answers_200_400_500 (fst (serve (main.get_stocks_by_industry stock_query v n) w))
  /\ answers_200_400_500 (fst (serve (main.get_stocks_by_area stock_query v n) w))
  /\ answers_200_400_500 (fst (serve (main.get_recent_7_days_data stock_query v) w))
  /\ answers_200_400_500 (fst (serve (main.get_latest_technical_indicators stock_query v) w))
  /\ answers_200_400_500 (fst (serve (main.get_top3_stock_predictions stock_query) w))
  /\ answers_200_400_500 (fst (serve (main.get_today_predictions stock_query v) w)).
Proof.
  destruct stock_query.
  - unfold serve, main.get_stocks_by_page, main.get_stock_by_symbol, main.get_stock_by_name,
      main.get_stocks_by_industry, main.get_stocks_by_area, main.get_recent_7_days_data,
      main.get_latest_technical_indicators, main.get_top3_stock_predictions,
      main.get_today_predictions.
    rewrite !check_db_connection_connected.
    repeat split; first [apply guarded_status | apply guarded_any_status].
  - repeat split; right; right; reflexivity.
Qed.

(** When a setting is missing, or [StockQuery(...)] raised at start-up,
    [stock_query] stays unset, and then every route ends with the code 500
    and the "connection not initialised" detail without sending a statement. *)
Theorem routes_need_a_connection
  (settings : Settings) (created : bool) (w : World) (n : Z) (v : string) :
  incomplete settings \/ created = false ->
  stock_query_initialised settings created = false
  /\ let stock_query := stock_query_initialised settings created in
     serve (main.get_stocks_by_page stock_query n) w
     = (Failed (HTTPException 500 db_uninitialised), [])
     /\ serve (main.get_stock_by_symbol stock_query v) w
        = (Failed (HTTPException 500 db_uninitialised), [])
     /\ serve (main.get_stock_by_name stock_query v) w
        = (Failed (HTTPException 500 db_uninitialised), [])
     /\ serve (main.get_stocks_by_industry stock_query v n) w
        = (Failed (HTTPException 500 db_uninitialised), [])
     /\ serve (main.get_stocks_by_area stock_query v n) w
        = (Failed (HTTPException 500 db_uninitialised), [])
     /\ serve (main.get_recent_7_days_data stock_query v) w
        = (Failed (HTTPException 500 db_uninitialised), [])
     /\ serve (main.get_latest_technical_indicators stock_query v) w
        = (Failed (HTTPException 500 db_uninitialised), [])
     /\ serve (main.get_top3_stock_predictions stock_query) w
        = (Failed (HTTPException 500 db_uninitialised), [])
     /\ serve (main.get_today_predictions stock_query v) w
        = (Failed (HTTPException 500 db_uninitialised), []).
Proof.
  intros Hbad.
  assert (Hoff : stock_query_initialised settings created = false).
  { unfold stock_query_initialised, incomplete in *.
    destruct Hbad as [[Hs|[Hs|[Hs|[Hs|Hs]]]]| ->]; try rewrite Hs; simpl;
      rewrite ?andb_false_r; try reflexivity.
    now destruct (_ && _). }
  split; [exact Hoff|]. cbv zeta. rewrite Hoff. repeat split.
Qed.

Lemma routes_need_a_connection_witness :
  stock_query_initialised no_password true = false
  /\ serve (main.get_stocks_by_page (stock_query_initialised no_password true) 1)
       (steady 0 db45)
     = (Failed (HTTPException 500 db_uninitialised), []).
Proof.
  pose proof (routes_need_a_connection no_password true (steady 0 db45) 1 "SZ"
                ltac:(left; right; right; right; left; reflexivity)) as (Hoff & Hpage & _).
  split; [exact Hoff | exact Hpage].
Defined.

(** When the engine finds nothing, the six routes that raise a 404
    [HTTPException] do so inside their own [try], where the clause for
    [Exception] catches it: the route ends with the code 500, the 404 and its
    text being only part of the detail. *)
Theorem missing_record_is_500 (w : World) (v : string) :
  (fst (run (StockQuery.get_stock_by_symbol v) w) = Return None ->
   fst (serve (main.get_stock_by_symbol true v) w)
   = Failed (HTTPException 500
               (query_failed (HTTPException 404 (not_found_text (symbol_not_found v))))))
  /\ (fst (run (StockQuery.get_stock_by_name v) w) = Return None ->
      fst (serve (main.get_stock_by_name true v) w)
      = Failed (HTTPException 500
                  (query_failed (HTTPException 404 (not_found_text (name_not_found v))))))
  /\ (fst (run (StockQuery.get_recent_7_days_data v) w) = Return [] ->
      fst (serve (main.get_recent_7_days_data true v) w)
      = Failed (HTTPException 500
                  (query_failed (HTTPException 404 (not_found_text (recent_not_found v))))))
  /\ (fst (run (StockQuery.get_latest_technical_indicators v) w) = Return None ->
      fst (serve (main.get_latest_technical_indicators true v) w)
      = Failed (HTTPException 500
                  (query_failed
                     (HTTPException 404 (not_found_text (indicators_not_found v))))))
  /\ (fst (run StockQuery.get_top3_predictions w) = Return [] ->
      fst (serve (main.get_top3_stock_predictions true) w)
      = Failed (HTTPException 500
                  (query_failed (HTTPException 404 (not_found_text top3_not_found)))))
  /\ (fst (run (StockQuery.get_today_predictions_by_ts_code v) w) = Return [] ->
      fst (serve (main.get_today_predictions true v) w)
      = Failed (HTTPException 500
                  (query_failed (HTTPException 404 (not_found_text (today_not_found v)))))).
Proof.
  unfold run, serve, main.get_stock_by_symbol, main.get_stock_by_name,
    main.get_recent_7_days_data, main.get_latest_technical_indicators,
    main.get_top3_stock_predictions, main.get_today_predictions.
  rewrite !check_db_connection_connected.
  unfold try_except_ValueError_Exception, try_except_Exception, hbind, call.
  repeat split; intros Hnone;
    match goal with
    | H : fst (?m w []) = _ |- _ => destruct (m w []) as [o log']; simpl in H; subst o
    end; reflexivity.
Qed.

Lemma missing_record_is_500_witness :
  fst (serve (main.get_stock_by_symbol true "DOESNOTEXIST") (steady 0 db45))
  = Failed (HTTPException 500
              (query_failed
                 (HTTPException 404 (not_found_text (symbol_not_found "DOESNOTEXIST")))))
  /\ fst (serve (main.get_top3_stock_predictions true) (steady 0 db45))
     = Failed (HTTPException 500
                 (query_failed (HTTPException 404 (not_found_text top3_not_found)))).
Proof.
  pose proof (missing_record_is_500 (steady 0 db45) "DOESNOTEXIST")
    as (Hsym & _ & _ & _ & Htop & _).
  split; [apply Hsym; reflexivity | apply Htop; reflexivity].
Defined.

(** A found record, and a non-empty list, pass through the same six routes
    unchanged. *)
Theorem found_record_is_the_body (w : World) (v : string) :
  (forall r, fst (run (StockQuery.get_stock_by_symbol v) w) = Return (Some r) ->
             fst (serve (main.get_stock_by_symbol true v) w) = Body r)
  /\ (forall r, fst (run (StockQuery.get_stock_by_name v) w) = Return (Some r) ->
                fst (serve (main.get_stock_by_name true v) w) = Body r)
  /\ (forall rows, rows <> [] ->
                   fst (run (StockQuery.get_recent_7_days_data v) w) = Return rows ->
                   fst (serve (main.get_recent_7_days_data true v) w) = Body rows)
  /\ (forall r, fst (run (StockQuery.get_latest_technical_indicators v) w) = Return (Some r) ->
                fst (serve (main.get_latest_technical_indicators true v) w) = Body r)
  /\ (forall rows, rows <> [] ->
                   fst (run StockQuery.get_top3_predictions w) = Return rows ->
                   fst (serve (main.get_top3_stock_predictions true) w) = Body rows)
  /\ (forall rows, rows <> [] ->
                   fst (run (StockQuery.get_today_predictions_by_ts_code v) w) = Return rows ->
                   fst (serve (main.get_today_predictions true v) w) = Body rows).
Proof.
  unfold run, serve, main.get_stock_by_symbol, main.get_stock_by_name,
    main.get_recent_7_days_data, main.get_latest_technical_indicators,
    main.get_top3_stock_predictions, main.get_today_predictions.
  rewrite !check_db_connection_connected.
  unfold try_except_ValueError_Exception, try_except_Exception, hbind, call.
  repeat split; intros;
    match goal with
    | H : fst (?m w []) = _ |- _ => destruct (m w []) as [o log']; simpl in H; subst o
    end;
    try match goal with
        | H : ?rows <> [] |- _ => destruct rows; [contradiction|]
        end;
    reflexivity.
Qed.

Lemma found_record_is_the_body_witness :
  exists rows,
    rows <> []
    /\ fst (serve (main.get_top3_stock_predictions true) (steady 20000 sample_signals))
       = Body rows.
Proof.
  exists (order_by PredictionRecord.id (ai_predictions_top3 sample_signals)).
  split; [discriminate|].
  apply (proj1 (proj2 (proj2 (proj2 (proj2
           (found_record_is_the_body (steady 20000 sample_signals) "000001.SZ")))))).
  - discriminate.
  - reflexivity.
Defined.

(** The three list routes have no not-found check: with a connection, their
    reply is the engine's outcome, a list (empty or not) as the body, a
    [ValueError] as the code 400 with its text, any other exception as the
    code 500. *)
Theorem list_routes_relay (w : World) (n : Z) (v : string) :
  let relay (outcome : Outcome (list StockRecord.t)) : Reply (list StockRecord.t) :=
    match outcome with
    | Return rows => Body rows
    | Raise (ValueError msg) => Failed (HTTPException 400 (value_error_text msg))
    | Raise x => Failed (HTTPException 500 (query_failed (Engine x)))
    end in
  fst (serve (main.get_stocks_by_page true n) w)
  = relay (fst (run (StockQuery.get_stocks_by_page_number n true) w))
  /\ fst (serve (main.get_stocks_by_area true v n) w)
     = relay (fst (run (StockQuery.get_stocks_by_page_and_area n v) w))
  /\ fst (serve (main.get_stocks_by_industry true v n) w)
     = relay (fst (run (StockQuery.get_stocks_by_page_and_industry n v) w)).
Proof.
  cbv zeta.
  unfold run, serve, main.get_stocks_by_page, main.get_stocks_by_area,
    main.get_stocks_by_industry.
  rewrite !check_db_connection_connected.
  unfold try_except_ValueError_Exception, call.
  repeat split;
    match goal with
    | |- context [?m w []] => destruct (m w []) as [[rows|[msg|e|msg]] log']
    end; reflexivity.
Qed.

(** Through the routes, on an unchanged dataset: a page within the page count
    is served as the slice of the table; a page beyond it, and page 1 of an
    empty table with it, ends with the code 400 and the engine's text; an
    area no row has is served as the empty list. *)
Theorem list_routes_on_steady_dataset (curdate : Z) (db : Database) (n : Z) (v : string) :
  1 <= n -> v <> EmptyString ->
  (n <= pages_for (count_rows (stocks db)) ->
   fst (serve (main.get_stocks_by_page true n) (steady curdate db))
   = Body (limit_offset 20 (20 * (n - 1)) (order_by StockRecord.id (stocks db))))
  /\ (pages_for (count_rows (stocks db)) < n ->
      fst (serve (main.get_stocks_by_page true n) (steady curdate db))
      = Failed (HTTPException 400
                  (value_error_text
                     (page_exceeds_max n (pages_for (count_rows (stocks db)))))))
  /\ (count_rows (filter (area_is v) (stocks db)) = 0 ->
      fst (serve (main.get_stocks_by_area true v n) (steady curdate db)) = Body [])
  /\ (count_rows (filter (industry_is v) (stocks db)) = 0 ->
      fst (serve (main.get_stocks_by_industry true v n) (steady curdate db)) = Body []).
Proof.
  intros Hn Hv.
  assert (Hserve : forall (A : Type) (m : M A) (a : A) (w : World),
             fst (run m w) = Return a ->
             fst (serve (hbind (main.check_db_connection true)
                           (fun _ => try_except_ValueError_Exception (call m)
                              (fun e => hraise (HTTPException 400 (value_error_text e)))
                              (fun e => hraise (HTTPException 500 (query_failed e))))) w)
             = Body a).
  { intros A m a w Hm. unfold serve, run in *. rewrite check_db_connection_connected.
    unfold try_except_ValueError_Exception, call.
    destruct (m w []) as [o log']. simpl in Hm. now subst o. }
  split; [|split; [|split]].
  - intros Hle. apply Hserve. now apply page_steady.
  - intros Hgt. unfold serve, main.get_stocks_by_page.
    rewrite check_db_connection_connected.
    unfold try_except_ValueError_Exception, call, get_stocks_by_page_number, bind.
    replace (n <? 1) with false by (symmetry; apply Z.ltb_ge; lia).
    rewrite (get_total_pages_up (steady curdate db) [] curdate db eq_refl).
    replace (n >? _) with true by (symmetry; apply Z.gtb_lt; lia).
    reflexivity.
  - intros Hc. apply Hserve.
    unfold run, get_stocks_by_page_and_area, bind.
    replace (n <? 1) with false by (symmetry; apply Z.ltb_ge; lia).
    rewrite (str_nonempty v Hv).
    rewrite (get_area_total_records_up (steady curdate db) [] curdate db eq_refl), Hc.
    reflexivity.
  - intros Hc. apply Hserve.
    unfold run, get_stocks_by_page_and_industry, bind.
    replace (n <? 1) with false by (symmetry; apply Z.ltb_ge; lia).
    rewrite (str_nonempty v Hv).
    rewrite (get_industry_total_records_up (steady curdate db) [] curdate db eq_refl), Hc.
    reflexivity.
Qed.

Lemma list_routes_on_steady_dataset_witness :
  fst (serve (main.get_stocks_by_page true 1) (steady 0 (stocks_only [])))
  = Failed (HTTPException 400
              (value_error_text
                 (page_exceeds_max 1 (pages_for (count_rows (stocks (stocks_only [])))))))
  /\ fst (serve (main.get_stocks_by_area true "BJ" 1) (steady 0 db45)) = Body [].
Proof.
  split.
  - apply (proj1 (proj2 (list_routes_on_steady_dataset 0 (stocks_only []) 1 "BJ"
                           ltac:(lia) ltac:(discriminate)))).
    reflexivity.
  - apply (proj1 (proj2 (proj2 (list_routes_on_steady_dataset 0 db45 1 "BJ"
                                  ltac:(lia) ltac:(discriminate))))).
    reflexivity.
Defined.

(** With a connection and the server down at the first round trip, every
    route called with valid arguments ends with the code 500, the detail
    holding the engine's wrapping [Exception] around the server's text. *)
Theorem routes_storage_down (w : World) (e : string) (n : Z) (v : string) :
  w 0%nat = Down e -> 1 <= n -> v <> EmptyString ->
  let failed (A : Type) (msg : ExceptionMsg) : Reply A :=
    Failed (HTTPException 500 (query_failed (Engine (Exception msg)))) in
  fst (serve (main.get_stocks_by_page true n) w) = failed _ (total_count_error e)
  /\ fst (serve (main.get_stock_by_symbol true v) w) = failed _ (query_error e)
  /\ fst (serve (main.get_stock_by_name true v) w) = failed _ (query_error e)
  /\ fst (serve (main.get_stocks_by_industry true v n) w) = failed _ (query_error e)
  /\ fst (serve (main.get_stocks_by_area true v n) w) = failed _ (query_error e)
  /\ fst (serve (main.get_recent_7_days_data true v) w) = failed _ (query_error e)
  /\ fst (serve (main.get_latest_technical_indicators true v) w) = failed _ (query_error e)
  /\ fst (serve (main.get_top3_stock_predictions true) w) = failed _ (top3_error e)
  /\ fst (serve (main.get_today_predictions true v) w) = failed _ (query_error e).
Proof.
  intros Hw Hn Hv. apply str_nonempty in Hv. apply Z.ltb_ge in Hn. cbv zeta.
  unfold serve, main.get_stocks_by_page, main.get_stock_by_symbol, main.get_stock_by_name,
    main.get_stocks_by_industry, main.get_stocks_by_area, main.get_recent_7_days_data,
    main.get_latest_technical_indicators, main.get_top3_stock_predictions,
    main.get_today_predictions.
  rewrite !check_db_connection_connected.
  repeat split;
    unfold try_except_ValueError_Exception, try_except_Exception, hbind, call,
      get_stocks_by_page_number, get_total_pages, get_total_records,
      get_stock_by_symbol, get_stock_by_name, get_stocks_by_page_and_area,
      get_stocks_by_page_and_industry, get_area_total_records,
      get_industry_total_records, get_recent_7_days_data,
      get_latest_technical_indicators, get_today_predictions_by_ts_code,
      get_top3_predictions, bind, try_except, execute, raise, ret;
    rewrite ?Hn, ?Hv; cbn [List.length]; rewrite ?Hw; reflexivity.
Qed.

Lemma routes_storage_down_witness :
  fst (serve (main.get_stocks_by_page true 2) (fun _ => Down "gone"))
  = Failed (HTTPException 500 (query_failed (Engine (Exception (total_count_error "gone")))))
  /\ fst (serve (main.get_top3_stock_predictions true) (fun _ => Down "gone"))
     = Failed (HTTPException 500 (query_failed (Engine (Exception (top3_error "gone"))))).
Proof.
  pose proof (routes_storage_down (fun _ => Down "gone"%string) "gone" 2 "SZ"
                eq_refl ltac:(lia) ltac:(discriminate))
    as (Hpage & _ & _ & _ & _ & _ & _ & Htop & _).
  split; [exact Hpage | exact Htop].
Defined.

(** ** Pages in any world *)

Lemma bind_returns {A B : Type} (m : M A) (k : A -> M B)
  (w : World) (log : list Statement) (b : B) :
  fst (bind m k w log) = Return b ->
  exists a log', m w log = (Return a, log') /\ fst (k a w log') = Return b.
Proof.
  unfold bind. destruct (m w log) as [[a|x] log']; [eauto | discriminate].
Qed.

Lemma wrapped_execute_returns {R : Type} (q : Query R) (wrap : string -> ExceptionMsg)
  (w : World) (log : list Statement) (r : R) :
  fst (try_except (execute q) (fun e => raise (Exception (wrap e))) w log) = Return r ->
  exists curdate db, answer q curdate db = inr r.
Proof.
  unfold try_except, execute, raise.
  destruct (w (List.length log)) as [curdate db|e]; [|discriminate].
  destruct (answer q curdate db) as [e|r'] eqn:E; [discriminate|].
  simpl. intros [= ->]. eauto.
Qed.

Lemma bounded_returns {A : Type} (limit offset : Z) (l rows : list A) :
  bounded limit offset l = inr rows -> rows = limit_offset limit offset l /\ 0 <= limit.
Proof.
  unfold bounded. destruct (limit <? 0) eqn:E; [discriminate|].
  destruct (offset <? 0); [discriminate|]. simpl. intros [= <-].
  apply Z.ltb_ge in E. now split.
Qed.

Lemma In_limit_offset {A : Type} (limit offset : Z) (l : list A) (r : A) :
  In r (limit_offset limit offset l) -> In r l.
Proof.
  unfold limit_offset. intros Hr. apply In_firstn in Hr.
  rewrite <- (firstn_skipn (Z.to_nat offset) l). apply in_or_app. now right.
Qed.

(** In any world, changing or failing as it may, a list that
    [get_stocks_by_page_number] returns has at most 20 rows and is in
    ascending order of id. *)
Theorem page_shape_in_any_world
  (w : World) (n : Z) (check_total : bool) (rows : list StockRecord.t) :
  fst (run (get_stocks_by_page_number n check_total) w) = Return rows ->
  count_rows rows <= 20
  /\ StronglySorted (fun a b => StockRecord.id a <= StockRecord.id b) rows.
Proof.
  unfold run, get_stocks_by_page_number. intros Hrun.
  destruct (n <? 1); [discriminate|].
  apply bind_returns in Hrun. destruct Hrun as (u & log1 & _ & Hrun).
  cbv zeta in Hrun. unfold try_except in Hrun.
  match type of Hrun with
  | fst (match ?body with _ => _ end) = _ =>
      assert (Hbody : fst body = Return rows)
        by (destruct body as [[a|[msg|e|msg]] log2]; simpl in *; congruence)
  end.
  apply bind_returns in Hbody. destruct Hbody as (fetched & log2 & Hfetch & Hrest).
  apply bind_returns in Hrest. destruct Hrest as (u' & log3 & _ & Hret).
  unfold ret in Hret. simpl in Hret. injection Hret as ->.
  unfold execute in Hfetch.
  destruct (w (List.length log1)) as [curdate db|e]; [|discriminate].
  destruct (answer (Q_stocks_page 20 (20 * (n - 1))) curdate db) as [e|r] eqn:E;
    [discriminate|].
  injection Hfetch as -> _. simpl in E.
  apply bounded_returns in E. destruct E as [-> _].
  split.
  - unfold limit_offset, count_rows. rewrite length_firstn. lia.
  - apply limit_offset_sorted. apply (order_by_sorted StockRecord.id).
Qed.

Lemma page_shape_in_any_world_witness :
  count_rows (limit_offset 20 20 (order_by StockRecord.id (stocks db40))) <= 20
  /\ StronglySorted (fun a b => StockRecord.id a <= StockRecord.id b)
       (limit_offset 20 20 (order_by StockRecord.id (stocks db40))).
Proof.
  apply (page_shape_in_any_world shrinking 2 true). reflexivity.
Defined.

(** In any world, every row that [get_stocks_by_page_and_area] returns has
    the area asked for, every row that [get_stocks_by_page_and_industry]
    returns has the industry asked for, and both lists are in ascending order
    of id. *)
Theorem filtered_rows_match_in_any_world
  (w : World) (n : Z) (v : string) (rows : list StockRecord.t) :
  (fst (run (get_stocks_by_page_and_area n v) w) = Return rows ->
   (forall r, In r rows -> StockRecord.area r = v)
   /\ StronglySorted (fun a b => StockRecord.id a <= StockRecord.id b) rows)
  /\ (fst (run (get_stocks_by_page_and_industry n v) w) = Return rows ->
      (forall r, In r rows -> StockRecord.industry r = v)
      /\ StronglySorted (fun a b => StockRecord.id a <= StockRecord.id b) rows).
Proof.
  split; intros Hrun.
  - unfold run, get_stocks_by_page_and_area in Hrun.
    destruct (n <? 1); [discriminate|]. destruct (str_empty v); [discriminate|].
    apply bind_returns in Hrun. destruct Hrun as (area_total & log1 & _ & Hrun).
    destruct (area_total =? 0).
    { injection Hrun as <-. split; [intros r []|constructor]. }
    apply bind_returns in Hrun. destruct Hrun as (total_pages & log2 & _ & Hrun).
    destruct (n >? total_pages); [discriminate|].
    cbv zeta in Hrun. apply wrapped_execute_returns in Hrun.
    destruct Hrun as (curdate & db & Hq). simpl in Hq.
    apply bounded_returns in Hq. destruct Hq as [-> _]. split.
    + intros r Hr. apply In_limit_offset in Hr. apply In_order_by in Hr.
      apply filter_In in Hr. destruct Hr as [_ Hr]. now apply String.eqb_eq in Hr.
    + apply limit_offset_sorted. apply (order_by_sorted StockRecord.id).
  - unfold run, get_stocks_by_page_and_industry in Hrun.
    destruct (n <? 1); [discriminate|]. destruct (str_empty v); [discriminate|].
    apply bind_returns in Hrun. destruct Hrun as (total & log1 & _ & Hrun).
    destruct (total =? 0).
    { injection Hrun as <-. split; [intros r []|constructor]. }
    apply bind_returns in Hrun. destruct Hrun as (total_pages & log2 & _ & Hrun).
    destruct (n >? total_pages); [discriminate|].
    cbv zeta in Hrun. apply wrapped_execute_returns in Hrun.
    destruct Hrun as (curdate & db & Hq). simpl in Hq.
    apply bounded_returns in Hq. destruct Hq as [-> _]. split.
    + intros r Hr. apply In_limit_offset in Hr. apply In_order_by in Hr.
      apply filter_In in Hr. destruct Hr as [_ Hr]. now apply String.eqb_eq in Hr.
    + apply limit_offset_sorted. apply (order_by_sorted StockRecord.id).
Qed.

Lemma filtered_rows_match_in_any_world_witness :
  (forall r, In r (limit_offset 5 40 (order_by StockRecord.id (stocks db45))) ->
             StockRecord.area r = "SZ"%string)
  /\ StronglySorted (fun a b => StockRecord.id a <= StockRecord.id b)
       (limit_offset 5 40 (order_by StockRecord.id (stocks db45))).
Proof.
  apply (proj1 (filtered_rows_match_in_any_world (steady 0 db45) 3 "SZ"
                  (limit_offset 5 40 (order_by StockRecord.id (stocks db45))))).
  reflexivity.
Defined.

(** ** The environment report *)

(** For a key that contains PASSWORD or SECRET, [safe_get] returns one of two
    fixed texts, the mask when the variable is set and the "not set" text
    otherwise; for any other key it returns the variable as it is. *)
Theorem safe_get_masks_secrets (environ : Environ) (key : string) :
  (contains "PASSWORD" key = true \/ contains "SECRET" key = true ->
   (environ key = None -> safe_get environ key = "NOT_SET"%string)
   /\ (forall value, environ key = Some value -> value <> "NOT_SET"%string ->
                     safe_get environ key = "***HIDDEN***"%string)
   /\ (safe_get environ key = "***HIDDEN***"%string
       \/ safe_get environ key = "NOT_SET"%string))
  /\ (contains "PASSWORD" key = false -> contains "SECRET" key = false ->
      safe_get environ key = getenv environ key "NOT_SET").
Proof.
  unfold safe_get, getenv. split.
  - intros Hkey.
    assert (Hor : contains "PASSWORD" key || contains "SECRET" key = true)
      by (apply orb_true_iff; exact Hkey).
    rewrite Hor. split; [|split].
    + intros ->. reflexivity.
    + intros value -> Hvalue. apply String.eqb_neq in Hvalue. now rewrite Hvalue.
    + destruct (negb _); auto.
  - intros -> ->. reflexivity.
Qed.

Lemma safe_get_masks_secrets_witness :
  safe_get (deployed "hunter2") "DB_PASSWORD" = "***HIDDEN***"%string
  /\ safe_get (deployed "hunter2") "DB_HOST"
     = getenv (deployed "hunter2") "DB_HOST" "NOT_SET".
Proof.
  destruct (safe_get_masks_secrets (deployed "hunter2") "DB_PASSWORD") as [Hmask _].
  destruct (safe_get_masks_secrets (deployed "hunter2") "DB_HOST") as [_ Hplain].
  split.
  - apply (proj1 (proj2 (Hmask (or_introl eq_refl))) "hunter2"%string);
      [reflexivity | discriminate].
  - apply Hplain; reflexivity.
Defined.

(** The report of [debug_env] does not depend on the password: two
    environments that agree on every other variable and both set
    [DB_PASSWORD] (to anything but the text NOT_SET) give the same report. *)
Theorem debug_env_ignores_the_password (environ environ' : Environ) (p p' : string) :
  (forall key, key <> "DB_PASSWORD"%string -> environ key = environ' key) ->
  environ "DB_PASSWORD"%string = Some p -> environ' "DB_PASSWORD"%string = Some p' ->
  p <> "NOT_SET"%string -> p' <> "NOT_SET"%string ->
  debug_env environ = debug_env environ'.
Proof.
  intros Hsame Hp Hp' Hset Hset'.
  apply String.eqb_neq in Hset. apply String.eqb_neq in Hset'.
  unfold debug_env, safe_get, getenv. cbn [contains String.prefix Ascii.eqb orb Bool.eqb].
  rewrite Hp, Hp', Hset, Hset'.
  repeat match goal with
         | |- context [environ ?k] =>
             lazymatch k with
             | "DB_PASSWORD"%string => fail
             | _ => rewrite (Hsame k) by discriminate
             end
         end.
  reflexivity.
Qed.

Lemma debug_env_ignores_the_password_witness :
  debug_env (deployed "hunter2") = debug_env (deployed "correct horse").
Proof.
  apply (debug_env_ignores_the_password (deployed "hunter2") (deployed "correct horse")
           "hunter2" "correct horse");
    [|reflexivity | reflexivity | discriminate | discriminate].
  intros key Hkey. unfold deployed.
  destruct (String.eqb key "DB_HOST"); [reflexivity|].
  destruct (String.eqb key "DB_USER"); [reflexivity|].
  destruct (String.eqb_spec key "DB_PASSWORD"); [contradiction | reflexivity].
Defined.
